(** * Forward Contract Ledger Service (backend/blockchain.py)

    A shallow embedding of [BlockchainService] and of the status endpoint of
    backend/app.py that reads it.  The web3 library and the ledger node are
    external to the repository: they enter as two interfaces, [Web3Lib] (pure
    helpers) and [LedgerNode] (the JSON-RPC node, a state machine), and the
    local time zone as [LocalClock].  Every node request a call performs is
    recorded, with its answer, in the call's trace. *)

From Stdlib Require Import ZArith List String Ascii Bool Lia DecimalString.
Import ListNotations.
Local Open Scope list_scope.
Local Open Scope string_scope.
Local Open Scope Z_scope.

(** ** Python values and exceptions *)

(** The values [is_configured] can return: [a and b and ...] yields the first
    falsy operand, or the last operand. *)
Inductive PyVal :=
| PyStr (s : string)
| PyBool (b : bool).

Definition truthy (v : PyVal) : bool :=
  match v with
  | PyStr s => negb (String.eqb s "")
  | PyBool b => b
  end.

(** An exception: its class and [str(e)]. *)
Record PyExn := mkExn { exn_class : string; exn_str : string }.

Definition Exception (msg : string) : PyExn := mkExn "Exception" msg.

Inductive Outcome (A : Type) :=
| Returned (a : A)
| Raised (e : PyExn).
Arguments Returned {A} a.
Arguments Raised {A} e.

(** ** Ledger data, as the ABI in [contract_abi] types it *)

Definition HexBytes := string.

Inductive BlockIdentifier := Latest | Pending | Earliest.

(** web3's [Eth.default_block]: the block a query without [block_identifier]
    is evaluated at. *)
Definition default_block : BlockIdentifier := Latest.

(** The five function entries of the ABI, applied to their inputs. *)
Inductive ContractCall :=
| createContract (_commodity : string) (_quantity _pricePerUnit _deliveryDate : Z)
| signAsBuyer (_contractId : Z)
| getContract (_contractId : Z)
| getTotalContracts
| getFarmerContracts (_farmer : string).

(** The output tuple of [getContract] (struct ForwardContract.Contract). *)
Record ContractData := {
  cd_id : Z;
  cd_farmer : string;
  cd_buyer : string;
  cd_commodity : string;
  cd_quantity : Z;
  cd_pricePerUnit : Z;
  cd_deliveryDate : Z;
  cd_farmerSigned : bool;
  cd_buyerSigned : bool;
  cd_settled : bool;
  cd_createdAt : Z
}.

Record ContractCreatedArgs := {
  ev_contractId : Z;
  ev_farmer : string;
  ev_commodity : string;
  ev_quantity : Z;
  ev_pricePerUnit : Z;
  ev_deliveryDate : Z
}.

(** A receipt log: one of the three events of the ABI, or a log that decodes
    to none of them. *)
Inductive EventLog :=
| ContractCreated (args : ContractCreatedArgs)
| ContractSigned (contractId : Z) (signer signerType : string)
| ContractSettled (contractId : Z) (farmer buyer : string) (totalValue : Z)
| ForeignLog (topic : string).

Record Receipt := {
  blockNumber : Z;
  gasUsed : Z;
  logs : list EventLog
}.

(** The dictionary handed to [build_transaction]. *)
Record TxParams := {
  p_from : string;
  p_nonce : Z;
  p_gas : Z;
  p_gasPrice : Z
}.

Record Transaction := {
  tx_from : string;
  tx_to : string;
  tx_nonce : Z;
  tx_gas : Z;
  tx_gasPrice : Z;
  tx_value : Z;
  tx_chainId : Z;
  tx_data : ContractCall
}.

Record LocalAccount := { address : string }.

Record SignedTransaction := { rawTransaction : HexBytes }.

Record DateTime := {
  dt_year : Z; dt_month : Z; dt_day : Z;
  dt_hour : Z; dt_minute : Z; dt_second : Z
}.

(** ** The external interfaces *)

(** Pure helpers of web3 and eth_account. *)
Class Web3Lib := {
  is_address : string -> bool;
  to_checksum_address : string -> string;
  from_key : string -> Outcome LocalAccount;
  (** [contract.functions.f(args)]: raises when the arguments do not match
      the ABI entry *)
  bind_call : ContractCall -> Outcome unit;
  sign_transaction : Transaction -> string -> Outcome SignedTransaction;
  hex : HexBytes -> string
}.

(** The node behind [self.w3], with state [W]. *)
Class LedgerNode (W : Type) := {
  node_is_connected : W -> bool * W;
  node_get_transaction_count : string -> BlockIdentifier -> W -> Outcome Z * W;
  node_gas_price : W -> Outcome Z * W;
  node_build_transaction : string -> ContractCall -> TxParams -> W -> Outcome Transaction * W;
  node_send_raw_transaction : HexBytes -> W -> Outcome HexBytes * W;
  node_wait_for_transaction_receipt : HexBytes -> W -> Outcome Receipt * W;
  node_call_getContract : string -> Z -> W -> Outcome ContractData * W;
  node_call_getTotalContracts : string -> W -> Outcome Z * W
}.

(** [datetime.fromtimestamp] in the process's time zone. *)
Class LocalClock := {
  fromtimestamp : Z -> Outcome DateTime
}.

(** One request to the node, with its answer. *)
Inductive IOEvent :=
| EvIsConnected (r : bool)
| EvGetTransactionCount (account : string) (block : BlockIdentifier) (r : Outcome Z)
| EvGasPrice (r : Outcome Z)
| EvBuildTransaction (call : ContractCall) (params : TxParams) (r : Outcome Transaction)
| EvSendRawTransaction (raw : HexBytes) (r : Outcome HexBytes)
| EvWaitForReceipt (tx_hash : HexBytes) (r : Outcome Receipt)
| EvCallGetContract (contract_id : Z) (r : Outcome ContractData)
| EvCallGetTotalContracts (r : Outcome Z).

(** ** The monad of service calls: node state, exceptions, trace *)

Definition Io (W A : Type) : Type := W -> Outcome A * W * list IOEvent.

Definition ret {W A} (a : A) : Io W A := fun s => (Returned a, s, []).

Definition raise {W A} (e : PyExn) : Io W A := fun s => (Raised e, s, []).

Definition bind {W A B} (m : Io W A) (k : A -> Io W B) : Io W B :=
  fun s =>
    match m s with
    | (Returned a, s1, t1) =>
        let '(r, s2, t2) := k a s1 in (r, s2, (t1 ++ t2)%list)
    | (Raised e, s1, t1) => (Raised e, s1, t1)
    end.

(** [try: m  except Exception as e: h e] *)
Definition try_except {W A} (m : Io W A) (h : PyExn -> Io W A) : Io W A :=
  fun s =>
    match m s with
    | (Returned a, s1, t1) => (Returned a, s1, t1)
    | (Raised e, s1, t1) =>
        let '(r, s2, t2) := h e s1 in (r, s2, (t1 ++ t2)%list)
    end.

Definition lift {W A} (o : Outcome A) : Io W A :=
  match o with
  | Returned a => ret a
  | Raised e => raise e
  end.

(** A request to the node: runs it and records it. *)
Definition request {W A} (op : W -> Outcome A * W) (ev : Outcome A -> IOEvent) : Io W A :=
  fun s => let '(r, s1) := op s in (r, s1, [ev r]).

Declare Scope io_scope.
Delimit Scope io_scope with io.
Notation "x <- m ;; k" := (bind m (fun x => k))
  (at level 61, m at next level, right associativity) : io_scope.
Local Open Scope io_scope.

(** [a and rest]: [rest] is evaluated only when [a] is truthy. *)
Definition py_and {W} (a : PyVal) (rest : Io W PyVal) : Io W PyVal :=
  if truthy a then rest else ret a.

Definition result {W A} (x : Outcome A * W * list IOEvent) : Outcome A := fst (fst x).
Definition final {W A} (x : Outcome A * W * list IOEvent) : W := snd (fst x).
Definition trace {W A} (x : Outcome A * W * list IOEvent) : list IOEvent := snd x.

(** ** The service *)

Record Contract := { contract_checksum_address : string }.

Record BlockchainService := {
  rpc_url : string;
  contract_address : string;
  private_key : string;
  contract : option Contract
}.

Fixpoint getenv (environ : list (string * string)) (key default : string) : string :=
  match environ with
  | [] => default
  | (k, v) :: rest => if String.eqb k key then v else getenv rest key default
  end.

Record CreateResult := {
  cr_success : bool;
  cr_transaction_hash : string;
  cr_contract_id : option Z;
  cr_block_number : Z;
  cr_gas_used : Z
}.

Record SignResult := {
  sr_success : bool;
  sr_transaction_hash : string;
  sr_block_number : Z;
  sr_gas_used : Z
}.

Record ContractView := {
  v_contract_id : Z;
  v_farmer_address : string;
  v_buyer_address : string;
  v_commodity : string;
  v_quantity : Z;
  v_price_per_unit : Z;
  v_delivery_date : string;
  v_delivery_date_timestamp : Z;
  v_farmer_signed : bool;
  v_buyer_signed : bool;
  v_settled : bool;
  v_created_at : string;
  v_total_value : Z;
  v_status : string
}.

(** [strftime]: the two formats the service uses. *)
Definition decimal (n : Z) : string := NilZero.string_of_int (Z.to_int n).

Definition two_digits (n : Z) : string :=
  if n <? 10 then "0" ++ decimal n else decimal n.

Definition strftime_Ymd (d : DateTime) : string :=
  decimal (dt_year d) ++ "-" ++ two_digits (dt_month d) ++ "-" ++ two_digits (dt_day d).

Definition strftime_YmdHMS (d : DateTime) : string :=
  strftime_Ymd d ++ " " ++ two_digits (dt_hour d) ++ ":" ++ two_digits (dt_minute d)
    ++ ":" ++ two_digits (dt_second d).

(** [logs[0]['args']['contractId'] if logs else None] *)
Definition first_contract_id (decoded : list ContractCreatedArgs) : option Z :=
  match decoded with
  | a :: _ => Some (ev_contractId a)
  | [] => None
  end.

(** [contract.events.ContractCreated().process_receipt(receipt)]: the logs
    that decode as ContractCreated, in receipt order; the others are dropped. *)
Definition process_receipt (receipt : Receipt) : list ContractCreatedArgs :=
  flat_map (fun l => match l with ContractCreated a => [a] | _ => [] end) (logs receipt).

Definition _get_contract_status (farmer_signed buyer_signed settled : bool) : string :=
  if settled then "SETTLED"
  else if farmer_signed && buyer_signed then "SIGNED_BY_BOTH"
  else if farmer_signed then "WAITING_FOR_BUYER"
  else "PENDING".

Definition not_configured_create : string :=
  "Blockchain service not configured. Please set CONTRACT_ADDRESS and PRIVATE_KEY in .env".

Definition not_configured : string := "Blockchain service not configured".

Definition contract_address_of (self : BlockchainService) : string :=
  match contract self with
  | Some c => contract_checksum_address c
  | None => ""
  end.

Section Service.
Context `{Web3Lib} {W : Type} `{LedgerNode W} `{LocalClock}.

(** [BlockchainService.__init__], over the process environment. *)
Definition init (environ : list (string * string)) : BlockchainService :=
  let rpc := getenv environ "POLYGON_RPC_URL" "https://rpc-mumbai.maticvigil.com" in
  let addr := getenv environ "CONTRACT_ADDRESS" "" in
  let key := getenv environ "PRIVATE_KEY" "" in
  {| rpc_url := rpc;
     contract_address := addr;
     private_key := key;
     contract :=
       if truthy (PyStr addr) && is_address addr
       then Some {| contract_checksum_address := to_checksum_address addr |}
       else None |}.

Definition w3_is_connected : Io W bool :=
  fun s => let '(b, s1) := node_is_connected s in (Returned b, s1, [EvIsConnected b]).

Definition is_configured (self : BlockchainService) : Io W PyVal :=
  py_and (PyStr (contract_address self))
    (py_and (PyStr (private_key self))
       (py_and (PyBool (match contract self with Some _ => true | None => false end))
          (b <- w3_is_connected ;; ret (PyBool b)))).

Definition get_transaction_count (account : string) : Io W Z :=
  request (node_get_transaction_count account default_block)
          (EvGetTransactionCount account default_block).

Definition gas_price : Io W Z := request node_gas_price EvGasPrice.

Definition build_transaction (self : BlockchainService) (call : ContractCall)
    (params : TxParams) : Io W Transaction :=
  request (node_build_transaction (contract_address_of self) call params)
          (EvBuildTransaction call params).

Definition send_raw_transaction (raw : HexBytes) : Io W HexBytes :=
  request (node_send_raw_transaction raw) (EvSendRawTransaction raw).

Definition wait_for_transaction_receipt (tx_hash : HexBytes) : Io W Receipt :=
  request (node_wait_for_transaction_receipt tx_hash) (EvWaitForReceipt tx_hash).

Definition create_contract (self : BlockchainService) (commodity : string)
    (quantity price_per_unit delivery_date_timestamp : Z) (farmer_address : string)
    : Io W CreateResult :=
  configured <- is_configured self ;;
  if negb (truthy configured) then raise (Exception not_configured_create)
  else
    try_except
      (account <- lift (from_key (private_key self)) ;;
       nonce <- get_transaction_count (address account) ;;
       let fn := createContract commodity quantity price_per_unit delivery_date_timestamp in
       _ <- lift (bind_call fn) ;;
       price <- gas_price ;;
       transaction <- build_transaction self fn
               {| p_from := address account; p_nonce := nonce;
                  p_gas := 500000; p_gasPrice := price |} ;;
       signed_txn <- lift (sign_transaction transaction (private_key self)) ;;
       tx_hash <- send_raw_transaction (rawTransaction signed_txn) ;;
       receipt <- wait_for_transaction_receipt tx_hash ;;
       let contract_id := first_contract_id (process_receipt receipt) in
       ret {| cr_success := true;
              cr_transaction_hash := hex tx_hash;
              cr_contract_id := contract_id;
              cr_block_number := blockNumber receipt;
              cr_gas_used := gasUsed receipt |})
      (fun e => raise (Exception ("Error creating contract: " ++ exn_str e))).

Definition sign_contract (self : BlockchainService) (contract_id : Z)
    (buyer_address : string) : Io W SignResult :=
  configured <- is_configured self ;;
  if negb (truthy configured) then raise (Exception not_configured)
  else
    try_except
      (account <- lift (from_key (private_key self)) ;;
       nonce <- get_transaction_count (address account) ;;
       let fn := signAsBuyer contract_id in
       _ <- lift (bind_call fn) ;;
       price <- gas_price ;;
       transaction <- build_transaction self fn
               {| p_from := address account; p_nonce := nonce;
                  p_gas := 300000; p_gasPrice := price |} ;;
       signed_txn <- lift (sign_transaction transaction (private_key self)) ;;
       tx_hash <- send_raw_transaction (rawTransaction signed_txn) ;;
       receipt <- wait_for_transaction_receipt tx_hash ;;
       ret {| sr_success := true;
              sr_transaction_hash := hex tx_hash;
              sr_block_number := blockNumber receipt;
              sr_gas_used := gasUsed receipt |})
      (fun e => raise (Exception ("Error signing contract: " ++ exn_str e))).

Definition get_contract_details (self : BlockchainService) (contract_id : Z)
    : Io W ContractView :=
  configured <- is_configured self ;;
  if negb (truthy configured) then raise (Exception not_configured)
  else
    try_except
      (_ <- lift (bind_call (getContract contract_id)) ;;
       contract_data <-
         request (node_call_getContract (contract_address_of self) contract_id)
                 (EvCallGetContract contract_id) ;;
       delivery <- lift (fromtimestamp (cd_deliveryDate contract_data)) ;;
       created <- lift (fromtimestamp (cd_createdAt contract_data)) ;;
       ret {| v_contract_id := cd_id contract_data;
              v_farmer_address := cd_farmer contract_data;
              v_buyer_address := cd_buyer contract_data;
              v_commodity := cd_commodity contract_data;
              v_quantity := cd_quantity contract_data;
              v_price_per_unit := cd_pricePerUnit contract_data;
              v_delivery_date := strftime_Ymd delivery;
              v_delivery_date_timestamp := cd_deliveryDate contract_data;
              v_farmer_signed := cd_farmerSigned contract_data;
              v_buyer_signed := cd_buyerSigned contract_data;
              v_settled := cd_settled contract_data;
              v_created_at := strftime_YmdHMS created;
              v_total_value := cd_quantity contract_data * cd_pricePerUnit contract_data;
              v_status := _get_contract_status (cd_farmerSigned contract_data)
                            (cd_buyerSigned contract_data) (cd_settled contract_data) |})
      (fun e => raise (Exception ("Error fetching contract details: " ++ exn_str e))).

Definition get_total_contracts (self : BlockchainService) : Io W Z :=
  configured <- is_configured self ;;
  if negb (truthy configured) then ret 0
  else
    try_except
      (_ <- lift (bind_call getTotalContracts) ;;
       request (node_call_getTotalContracts (contract_address_of self))
               EvCallGetTotalContracts)
      (fun _ => ret 0).
End Service.

(** ** The status endpoint (backend/app.py, [blockchain_status]) *)

(** The two dictionaries [blockchain_status] can return. *)
Inductive StatusReport :=
| StatusReportOk (configured : PyVal) (connected : bool) (url : string)
    (address_shown : option string) (total_contracts : Z) (message : string)
| StatusReportFailed (error : string).

Definition report_success (r : StatusReport) : bool :=
  match r with
  | StatusReportOk _ _ _ _ _ _ => true
  | StatusReportFailed _ => false
  end.

Definition report_configured (r : StatusReport) : PyVal :=
  match r with
  | StatusReportOk c _ _ _ _ _ => c
  | StatusReportFailed _ => PyBool false
  end.

Definition report_total_contracts (r : StatusReport) : option Z :=
  match r with
  | StatusReportOk _ _ _ _ n _ => Some n
  | StatusReportFailed _ => None
  end.

Section StatusEndpoint.
Context `{Web3Lib} {W : Type} `{LedgerNode W}.

Definition blockchain_status (blockchain_service : BlockchainService) : Io W StatusReport :=
  try_except
    (configured <- is_configured blockchain_service ;;
     total_contracts <-
       (if truthy configured then get_total_contracts blockchain_service else ret 0) ;;
     connected <- w3_is_connected ;;
     ret (StatusReportOk configured connected (rpc_url blockchain_service)
            (if truthy configured then Some (contract_address blockchain_service) else None)
            total_contracts
            (if truthy configured then "Blockchain service is operational"
             else "Blockchain not configured. Set CONTRACT_ADDRESS and PRIVATE_KEY in .env")))
    (fun e => ret (StatusReportFailed (exn_str e))).
End StatusEndpoint.

(** ** The error taxonomy of the specification *)



(** Which request an event records, answers aside. *)
Inductive RequestKind :=
| RqIsConnected | RqGetTransactionCount | RqGasPrice | RqBuildTransaction
| RqSendRawTransaction | RqWaitForReceipt | RqCallGetContract | RqCallGetTotalContracts.

Definition request_kind (ev : IOEvent) : RequestKind :=
  match ev with
  | EvIsConnected _ => RqIsConnected
  | EvGetTransactionCount _ _ _ => RqGetTransactionCount
  | EvGasPrice _ => RqGasPrice
  | EvBuildTransaction _ _ _ => RqBuildTransaction
  | EvSendRawTransaction _ _ => RqSendRawTransaction
  | EvWaitForReceipt _ _ => RqWaitForReceipt
  | EvCallGetContract _ _ => RqCallGetContract
  | EvCallGetTotalContracts _ => RqCallGetTotalContracts
  end.

Definition request_kind_eqb (a b : RequestKind) : bool :=
  match a, b with
  | RqIsConnected, RqIsConnected
  | RqGetTransactionCount, RqGetTransactionCount
  | RqGasPrice, RqGasPrice
  | RqBuildTransaction, RqBuildTransaction
  | RqSendRawTransaction, RqSendRawTransaction
  | RqWaitForReceipt, RqWaitForReceipt
  | RqCallGetContract, RqCallGetContract
  | RqCallGetTotalContracts, RqCallGetTotalContracts => true
  | _, _ => false
  end.

(** How many times a call issued the request [k]. *)
Definition times_requested (k : RequestKind) (t : list IOEvent) : nat :=
  List.length (filter (fun ev => request_kind_eqb (request_kind ev) k) t).

(** The nonces a call put into the transactions it had built. *)
Definition nonces_used (t : list IOEvent) : list Z :=
  flat_map (fun ev => match ev with
                      | EvBuildTransaction _ params _ => [p_nonce params]
                      | _ => []
                      end) t.

(** The raw transactions a call handed to the node. *)
Definition submitted (t : list IOEvent) : list HexBytes :=
  flat_map (fun ev => match ev with
                      | EvSendRawTransaction raw _ => [raw]
                      | _ => []
                      end) t.


(** ** A reference environment: UTC clock, scripted ledger *)

(** Days since 1970-01-01 to the proleptic Gregorian (year, month, day). *)
Definition civil_from_days (days : Z) : Z * Z * Z :=
  let z := days + 719468 in
  let era := z / 146097 in
  let doe := z - era * 146097 in
  let yoe := (doe - doe / 1460 + doe / 36524 - doe / 146096) / 365 in
  let doy := doe - (365 * yoe + yoe / 4 - yoe / 100) in
  let mp := (5 * doy + 2) / 153 in
  let d := doy - (153 * mp + 2) / 5 + 1 in
  let m := if mp <? 10 then mp + 3 else mp - 9 in
  let y := yoe + era * 400 + (if m <=? 2 then 1 else 0) in
  (y, m, d).

(** [datetime.fromtimestamp] with TZ=UTC; [datetime] holds years 1 to 9999. *)
Definition utc_fromtimestamp (ts : Z) : Outcome DateTime :=
  let '(y, m, d) := civil_from_days (ts / 86400) in
  let secs := ts mod 86400 in
  if (1 <=? y) && (y <=? 9999)
  then Returned {| dt_year := y; dt_month := m; dt_day := d;
                   dt_hour := secs / 3600;
                   dt_minute := (secs mod 3600) / 60;
                   dt_second := secs mod 60 |}
  else Raised (mkExn "ValueError" ("year " ++ decimal y ++ " is out of range")).

Definition utc_clock : LocalClock := {| fromtimestamp := utc_fromtimestamp |}.

Definition zero_address : string := "0x0000000000000000000000000000000000000000".

(** The tuple a Solidity mapping yields for a key never written. *)
Definition empty_tuple : ContractData :=
  {| cd_id := 0; cd_farmer := zero_address; cd_buyer := zero_address;
     cd_commodity := ""; cd_quantity := 0; cd_pricePerUnit := 0;
     cd_deliveryDate := 0; cd_farmerSigned := false; cd_buyerSigned := false;
     cd_settled := false; cd_createdAt := 0 |}.

Definition call_label (call : ContractCall) : string :=
  match call with
  | createContract c _ _ _ => "createContract(" ++ c ++ ")"
  | signAsBuyer i => "signAsBuyer(" ++ decimal i ++ ")"
  | getContract i => "getContract(" ++ decimal i ++ ")"
  | getTotalContracts => "getTotalContracts()"
  | getFarmerContracts f => "getFarmerContracts(" ++ f ++ ")"
  end.

(** A stand-in for web3: any non-empty text starting with 0x is an address,
    any non-empty key signs, and a signed transaction spells out its sender,
    nonce and call. *)
Definition fake_lib : Web3Lib :=
  {| is_address := fun a => String.prefix "0x" a;
     to_checksum_address := fun a => a;
     from_key := fun k =>
       if String.eqb k "" then Raised (mkExn "ValueError" "invalid private key")
       else Returned {| address := "0xSIGNER" |};
     bind_call := fun call =>
       match call with
       | createContract _ q p d =>
           if (0 <=? q) && (0 <=? p) && (0 <=? d) then Returned tt
           else Raised (mkExn "Web3ValidationError" "arguments do not match the ABI")
       | signAsBuyer i | getContract i =>
           if 0 <=? i then Returned tt
           else Raised (mkExn "Web3ValidationError" "arguments do not match the ABI")
       | _ => Returned tt
       end;
     sign_transaction := fun tx k =>
       Returned {| rawTransaction :=
                     "signed:" ++ tx_from tx ++ ":" ++ decimal (tx_nonce tx)
                       ++ ":" ++ call_label (tx_data tx) |};
     hex := fun h => "0x" ++ h |}.

(** A scripted ledger with one account.  [get_transaction_count] follows
    JSON-RPC: at [Latest] it counts the transactions in blocks, at [Pending]
    those in the pool as well. *)
Record FakeLedger := {
  fl_connected : bool;
  fl_mined : list HexBytes;
  fl_pool : list HexBytes;
  fl_gas_price : Z;
  fl_mines : bool;
  fl_emits : list EventLog;
  fl_contracts : list ContractData
}.

Definition fake_count (block : BlockIdentifier) (s : FakeLedger) : Z :=
  match block with
  | Latest => Z.of_nat (List.length (fl_mined s))
  | Pending => Z.of_nat (List.length (fl_mined s) + List.length (fl_pool s))
  | Earliest => 0
  end.

Definition fake_send (raw : HexBytes) (s : FakeLedger) : Outcome HexBytes * FakeLedger :=
  (Returned ("hash-of-" ++ raw),
   {| fl_connected := fl_connected s; fl_mined := fl_mined s;
      fl_pool := (fl_pool s ++ [raw])%list; fl_gas_price := fl_gas_price s;
      fl_mines := fl_mines s; fl_emits := fl_emits s;
      fl_contracts := fl_contracts s |}).

Definition fake_wait (tx_hash : HexBytes) (s : FakeLedger) : Outcome Receipt * FakeLedger :=
  if fl_mines s
  then (Returned {| blockNumber := Z.of_nat (List.length (fl_mined s)) + 1;
                    gasUsed := 21000;
                    logs := fl_emits s |},
        {| fl_connected := fl_connected s;
           fl_mined := (fl_mined s ++ fl_pool s)%list;
           fl_pool := []; fl_gas_price := fl_gas_price s;
           fl_mines := fl_mines s; fl_emits := fl_emits s;
           fl_contracts := fl_contracts s |})
  else (Raised (mkExn "TimeExhausted" "Transaction is not in the chain after 120 seconds"), s).

Definition fake_getContract (contract_id : Z) (s : FakeLedger) : Outcome ContractData * FakeLedger :=
  (Returned (nth (Z.to_nat contract_id - 1) 
               (if 1 <=? contract_id then fl_contracts s else []) empty_tuple), s).

Definition fake_node : LedgerNode FakeLedger :=
  {| node_is_connected := fun s => (fl_connected s, s);
     node_get_transaction_count := fun _ block s => (Returned (fake_count block s), s);
     node_gas_price := fun s => (Returned (fl_gas_price s), s);
     node_build_transaction := fun to call params s =>
       (Returned {| tx_from := p_from params; tx_to := to; tx_nonce := p_nonce params;
                    tx_gas := p_gas params; tx_gasPrice := p_gasPrice params;
                    tx_value := 0; tx_chainId := 80001; tx_data := call |}, s);
     node_send_raw_transaction := fake_send;
     node_wait_for_transaction_receipt := fake_wait;
     node_call_getContract := fun _ => fake_getContract;
     node_call_getTotalContracts := fun _ s => (Returned (Z.of_nat (List.length (fl_contracts s))), s) |}.

(** A fresh ledger: reachable, nothing mined, nothing pooled. *)
Definition fresh_ledger (mines : bool) : FakeLedger :=
  {| fl_connected := true; fl_mined := []; fl_pool := []; fl_gas_price := 30;
     fl_mines := mines; fl_emits := []; fl_contracts := [] |}.

Definition offline_ledger : FakeLedger :=
  {| fl_connected := false; fl_mined := []; fl_pool := []; fl_gas_price := 30;
     fl_mines := true; fl_emits := []; fl_contracts := [] |}.

Definition deployed_at : string := "0xC0FFEE".

Definition keyed_environ : list (string * string) :=
  [("CONTRACT_ADDRESS", deployed_at); ("PRIVATE_KEY", "k3y")].

Definition keyless_environ : list (string * string) :=
  [("CONTRACT_ADDRESS", deployed_at)].

(** The creation event of the end-to-end scenario: the ledger assigns id 1. *)
Definition soybean_created : ContractCreatedArgs :=
  {| ev_contractId := 1; ev_farmer := "0xSIGNER"; ev_commodity := "Soybean";
     ev_quantity := 100; ev_pricePerUnit := 5000; ev_deliveryDate := 1748736000 |}.

(** A ledger whose next block emits a foreign log, then the creation event. *)
Definition creating_ledger : FakeLedger :=
  {| fl_connected := true; fl_mined := []; fl_pool := []; fl_gas_price := 30;
     fl_mines := true;
     fl_emits := [ForeignLog "Transfer"; ContractCreated soybean_created];
     fl_contracts := [] |}.

(** A stored contract at the top of the range the specification asks for. *)
Definition bulk_contract : ContractData :=
  {| cd_id := 1; cd_farmer := "0xSIGNER"; cd_buyer := zero_address;
     cd_commodity := "Soybean"; cd_quantity := 10 ^ 9; cd_pricePerUnit := 10 ^ 9;
     cd_deliveryDate := 1748736000; cd_farmerSigned := true; cd_buyerSigned := false;
     cd_settled := false; cd_createdAt := 1746057600 |}.

Definition stocked_ledger : FakeLedger :=
  {| fl_connected := true; fl_mined := []; fl_pool := []; fl_gas_price := 30;
     fl_mines := true; fl_emits := []; fl_contracts := [bulk_contract] |}.

(** The service as [init] builds it with address and key set, and with the
    key missing. *)
Definition keyed_service : BlockchainService := @init fake_lib keyed_environ.

Definition keyless_service : BlockchainService := @init fake_lib keyless_environ.

(** The test [if not self.is_configured()] at the head of every operation. *)
Definition gate_open `{Web3Lib} {W : Type} `{LedgerNode W}
    (self : BlockchainService) (s : W) : bool :=
  match fst (fst (is_configured self s)) with
  | Returned answer => truthy answer
  | Raised _ => false
  end.

(** The four statuses a contract can be reported in. *)
Definition statuses : list string :=
  ["PENDING"; "WAITING_FOR_BUYER"; "SIGNED_BY_BOTH"; "SETTLED"].

(** What [get_contract_details] makes of the empty tuple, [epoch] being the
    local date of timestamp 0. *)
Definition empty_view (epoch : DateTime) : ContractView :=
  {| v_contract_id := 0;
     v_farmer_address := zero_address;
     v_buyer_address := zero_address;
     v_commodity := "";
     v_quantity := 0;
     v_price_per_unit := 0;
     v_delivery_date := strftime_Ymd epoch;
     v_delivery_date_timestamp := 0;
     v_farmer_signed := false;
     v_buyer_signed := false;
     v_settled := false;
     v_created_at := strftime_YmdHMS epoch;
     v_total_value := 0;
     v_status := "PENDING" |}.




(** The nonce discipline of a mutating call: at most one count query, asked at
    the default block, and a built transaction carries the count the node
    answered for its sender. *)
Definition nonce_from_default_block (t : list IOEvent) : Prop :=
  (times_requested RqGetTransactionCount t <= 1)%nat
  /\ (forall account block o,
        In (EvGetTransactionCount account block o) t -> block = Latest)
  /\ (forall call params o,
        In (EvBuildTransaction call params o) t ->
        In (EvGetTransactionCount (p_from params) Latest (Returned (p_nonce params))) t).

(** ** The order of the pipeline and the kinds of request *)

(** The requests of a mutating call, in the order the code issues them. *)
Definition pipeline_order : list RequestKind :=
  [RqIsConnected; RqGetTransactionCount; RqGasPrice; RqBuildTransaction;
   RqSendRawTransaction; RqWaitForReceipt].

(** Requests that cannot change the ledger. *)
Definition is_read_only (k : RequestKind) : bool :=
  match k with
  | RqIsConnected | RqCallGetContract | RqCallGetTotalContracts => true
  | _ => false
  end.

(** Each stage of a run feeds on the answer of the one before: a transaction
    is built with the gas price the node quoted, what is submitted is the
    built transaction as signed with [key], and the hash waited on is the one
    the submission returned. *)
Definition pipeline_data_flow `{Web3Lib} (key : string) (t : list IOEvent) : Prop :=
  (forall call params o,
      In (EvBuildTransaction call params o) t ->
      In (EvGasPrice (Returned (p_gasPrice params))) t)
  /\ (forall raw o,
      In (EvSendRawTransaction raw o) t ->
      exists call params transaction signed_txn,
        In (EvBuildTransaction call params (Returned transaction)) t
        /\ sign_transaction transaction key = Returned signed_txn
        /\ raw = rawTransaction signed_txn)
  /\ (forall tx_hash o,
      In (EvWaitForReceipt tx_hash o) t ->
      exists raw, In (EvSendRawTransaction raw (Returned tx_hash)) t).

(** ** The HTTP layer over the service (backend/app.py) *)

(** What FastAPI sends back: the handler's dictionary with status 200, or the
    status and detail of the HTTPException it raised. *)
Inductive HttpResponse (A : Type) :=
| Http200 (body : A)
| HttpError (status_code : Z) (detail : string).
Arguments Http200 {A} body.
Arguments HttpError {A} status_code detail.

Definition status_of {A} (r : HttpResponse A) : Z :=
  match r with
  | Http200 _ => 200
  | HttpError code _ => code
  end.

Record CreateContractRequest := {
  rq_commodity : string;
  rq_quantity : Z;
  rq_price_per_unit : Z;
  rq_delivery_date : string;
  rq_farmer_address : string
}.

Record SignContractRequest := {
  rq_contract_id : Z;
  rq_buyer_address : string
}.

(** The handlers' success dictionaries. *)
Record ApiBody (A : Type) := {
  body_success : bool;
  body_message : option string;
  body_data : A
}.
Arguments body_success {A} a.
Arguments body_message {A} a.
Arguments body_data {A} a.

(** [int(datetime.strptime(text, '%Y-%m-%d').timestamp())] in the process's
    time zone. *)
Class DateParser := {
  strptime_timestamp : string -> Outcome Z
}.

Section Api.
Context `{Web3Lib} {W : Type} `{LedgerNode W} `{LocalClock} `{DateParser}.

Definition api_create_contract (blockchain_service : BlockchainService)
    (request : CreateContractRequest) : Io W (HttpResponse (ApiBody CreateResult)) :=
  try_except
    (delivery_timestamp <- lift (strptime_timestamp (rq_delivery_date request)) ;;
     created <- create_contract blockchain_service (rq_commodity request)
                  (rq_quantity request) (rq_price_per_unit request)
                  delivery_timestamp (rq_farmer_address request) ;;
     ret (Http200 {| body_success := true;
                     body_message := Some "Contract created successfully on blockchain";
                     body_data := created |}))
    (fun e => ret (HttpError 500 (exn_str e))).

Definition api_sign_contract (blockchain_service : BlockchainService)
    (request : SignContractRequest) : Io W (HttpResponse (ApiBody SignResult)) :=
  try_except
    (signed <- sign_contract blockchain_service (rq_contract_id request)
                 (rq_buyer_address request) ;;
     ret (Http200 {| body_success := true;
                     body_message := Some "Contract signed successfully";
                     body_data := signed |}))
    (fun e => ret (HttpError 500 (exn_str e))).

Definition api_get_contract (blockchain_service : BlockchainService)
    (contract_id : Z) : Io W (HttpResponse (ApiBody ContractView)) :=
  try_except
    (contract_details <- get_contract_details blockchain_service contract_id ;;
     ret (Http200 {| body_success := true;
                     body_message := None;
                     body_data := contract_details |}))
    (fun e => ret (HttpError 500 (exn_str e))).
End Api.

(** ** What the front end shows (streamlit_app.py, the three contract tabs) *)




(** ** The forecasting model's data access (backend/ml_model.py) *)

Section MlModel.
(** Dates and prices are pandas values; the ARIMA fit and everything after it
    in [predict_prices] is the opaque [fit_forecast]. *)
Variables (Date Price Forecast : Type).

Record PriceRow := {
  row_date : Date;
  row_commodity : string;
  row_price : Price
}.

Variable fit_forecast : string -> list PriceRow -> Z -> Outcome Forecast.

(** [str(HTTPException(status_code, detail))], which depends on the Starlette
    version. *)
Variable http_exception_str : Z -> string -> string.

(** [df[df['commodity'] == commodity]] *)
Definition of_commodity (df : list PriceRow) (commodity : string) : list PriceRow :=
  filter (fun row => String.eqb (row_commodity row) commodity) df.

(** pandas [tail(n)]: the last [n] rows; none for 0; for a negative [n], all
    rows but the first [-n]. *)
Definition tail (n : Z) (rows : list PriceRow) : list PriceRow :=
  if n =? 0 then []
  else if 0 <? n then skipn (List.length rows - Z.to_nat n) rows
  else skipn (Z.to_nat (- n)) rows.

Definition predict_prices (df : list PriceRow) (commodity : string) (days : Z)
    : Outcome Forecast :=
  let body :=
    let commodity_data := of_commodity df commodity in
    if (List.length commodity_data =? 0)%nat
    then Raised (mkExn "ValueError" ("No data found for commodity: " ++ commodity))
    else fit_forecast commodity commodity_data days in
  match body with
  | Returned predictions => Returned predictions
  | Raised e => Raised (Exception ("Error in price prediction: " ++ exn_str e))
  end.

(** The records of [get_historical_data]: date and price of each row kept. *)
Definition get_historical_data (df : list PriceRow) (commodity : string) (days : Z)
    : string * list (Date * Price) :=
  let commodity_data := of_commodity df commodity in
  let recent_data := tail days commodity_data in
  (commodity, map (fun row => (row_date row, row_price row)) recent_data).

Definition HTTPException (status_code : Z) (detail : string) : PyExn :=
  mkExn "HTTPException" (http_exception_str status_code detail).

(** The handler of POST /predict, its two [except] clauses in order. *)
Definition api_predict_prices (df : list PriceRow) (commodity : string) (days : Z)
    : HttpResponse (ApiBody Forecast) :=
  let body :=
    if (days <? 1) || (30 <? days)
    then Raised (HTTPException 400 "Days must be between 1 and 30")
    else match predict_prices df commodity days with
         | Returned predictions =>
             Returned {| body_success := true; body_message := None;
                         body_data := predictions |}
         | Raised e => Raised e
         end in
  match body with
  | Returned response => Http200 response
  | Raised e =>
      if String.eqb (exn_class e) "ValueError" then HttpError 404 (exn_str e)
      else HttpError 500 ("Prediction error: " ++ exn_str e)
  end.
End MlModel.

Arguments row_date {Date Price} p.
Arguments row_commodity {Date Price} p.
Arguments row_price {Date Price} p.
Arguments of_commodity {Date Price} df commodity.
Arguments tail {Date Price} n rows.
Arguments predict_prices {Date Price Forecast} fit_forecast df commodity days.
Arguments get_historical_data {Date Price} df commodity days.
Arguments api_predict_prices {Date Price Forecast} fit_forecast http_exception_str
  df commodity days.

(** ** More of the reference environment *)

(** Days since 1970-01-01 of a proleptic Gregorian date. *)
Definition days_from_civil (y m d : Z) : Z :=
  let y' := if m <=? 2 then y - 1 else y in
  let era := y' / 400 in
  let yoe := y' - era * 400 in
  let mp := if 2 <? m then m - 3 else m + 9 in
  let doy := (153 * mp + 2) / 5 + d - 1 in
  let doe := yoe * 365 + yoe / 4 - yoe / 100 + doy in
  era * 146097 + doe - 719468.

Definition digit_value (c : ascii) : option Z :=
  let n := Z.of_nat (nat_of_ascii c) in
  if (48 <=? n) && (n <=? 57) then Some (n - 48) else None.

(** A stand-in for strptime with TZ=UTC: exactly YYYY-MM-DD, zero-padded, and
    a date of the calendar. *)
Definition utc_strptime_timestamp (text : string) : Outcome Z :=
  let bad := Raised (mkExn "ValueError"
                       ("time data " ++ text ++ " does not match format %Y-%m-%d")) in
  match list_ascii_of_string text with
  | [y1; y2; y3; y4; s1; m1; m2; s2; d1; d2] =>
      match digit_value y1, digit_value y2, digit_value y3, digit_value y4,
            digit_value m1, digit_value m2, digit_value d1, digit_value d2 with
      | Some a, Some b, Some c, Some d, Some e, Some f, Some g, Some h =>
          let y := 1000 * a + 100 * b + 10 * c + d in
          let m := 10 * e + f in
          let dd := 10 * g + h in
          if Ascii.eqb s1 "-" && Ascii.eqb s2 "-"
             && (1 <=? m) && (m <=? 12) && (1 <=? dd) && (dd <=? 31)
             && (let '(y2', m2', d2') := civil_from_days (days_from_civil y m dd) in
                 (y2' =? y) && (m2' =? m) && (d2' =? dd))
          then Returned (days_from_civil y m dd * 86400)
          else bad
      | _, _, _, _, _, _, _, _ => bad
      end
  | _ => bad
  end.

Definition utc_parser : DateParser := {| strptime_timestamp := utc_strptime_timestamp |}.

(** A stored contract whose delivery date lies past the year 9999. *)
Definition far_future_contract : ContractData :=
  {| cd_id := 2; cd_farmer := "0xSIGNER"; cd_buyer := zero_address;
     cd_commodity := "Mustard"; cd_quantity := 10; cd_pricePerUnit := 6000;
     cd_deliveryDate := 253402300800; cd_farmerSigned := true; cd_buyerSigned := false;
     cd_settled := false; cd_createdAt := 1746057600 |}.

Definition archive_ledger : FakeLedger :=
  {| fl_connected := true; fl_mined := []; fl_pool := []; fl_gas_price := 30;
     fl_mines := true; fl_emits := [];
     fl_contracts := [bulk_contract; far_future_contract] |}.

Definition soybean_request : CreateContractRequest :=
  {| rq_commodity := "Soybean"; rq_quantity := 100; rq_price_per_unit := 5000;
     rq_delivery_date := "2025-06-01"; rq_farmer_address := "0xABC" |}.

(** ** Proof tools *)

(** Opens the service operations down to the node requests they are made of. *)
Ltac io_unfold :=
  unfold create_contract, sign_contract, get_contract_details, get_total_contracts,
    blockchain_status, is_configured, py_and, get_transaction_count, gas_price,
    build_transaction, send_raw_transaction, wait_for_transaction_receipt,
    w3_is_connected, bind, try_except, request, lift, ret, raise.

(** Follows the next answer of a run, in evaluation order: a node request at
    a known state, or a library call. *)
Ltac io_step :=
  match goal with
  | |- context [node_is_connected ?s] =>
      destruct (node_is_connected s) as [? ?] eqn:?
  | |- context [node_get_transaction_count ?a ?b ?s] =>
      destruct (node_get_transaction_count a b s) as [[?|?] ?] eqn:?
  | |- context [node_gas_price ?s] =>
      destruct (node_gas_price s) as [[?|?] ?] eqn:?
  | |- context [node_build_transaction ?a ?c ?p ?s] =>
      destruct (node_build_transaction a c p s) as [[?|?] ?] eqn:?
  | |- context [node_send_raw_transaction ?r ?s] =>
      destruct (node_send_raw_transaction r s) as [[?|?] ?] eqn:?
  | |- context [node_wait_for_transaction_receipt ?h ?s] =>
      destruct (node_wait_for_transaction_receipt h s) as [[?|?] ?] eqn:?
  | |- context [node_call_getContract ?a ?i ?s] =>
      destruct (node_call_getContract a i s) as [[?|?] ?] eqn:?
  | |- context [node_call_getTotalContracts ?a ?s] =>
      destruct (node_call_getTotalContracts a s) as [[?|?] ?] eqn:?
  | |- context [from_key ?k] => destruct (from_key k) as [?|?] eqn:?
  | |- context [bind_call ?c] => destruct (bind_call c) as [[]|?] eqn:?
  | |- context [sign_transaction ?t ?k] => destruct (sign_transaction t k) as [?|?] eqn:?
  | |- context [fromtimestamp ?t] => destruct (fromtimestamp t) as [?|?] eqn:?
  end; cbn -[String.append].

Ltac io_gate self :=
  cbn -[String.append];
  destruct (String.eqb (contract_address self) "") eqn:?; cbn -[String.append];
  [| destruct (String.eqb (private_key self) "") eqn:?; cbn -[String.append];
     [| destruct (contract self) eqn:?; cbn -[String.append] ] ].

Ltac io_run := io_unfold; cbn -[String.append]; repeat io_step.

(** Reads membership in a finished trace: each event is one of finitely many. *)
Ltac io_trace :=
  repeat match goal with
    | H : False |- _ => contradiction
    | H : _ \/ _ |- _ => destruct H
    | H : _ /\ _ |- _ => destruct H
    | H : @eq IOEvent _ _ |- _ => first [discriminate H | injection H as ?; subst]
    | H : @eq (Outcome _) _ _ |- _ => first [discriminate H | injection H as ?; subst]
    | H : @eq bool _ _ |- _ => discriminate H
    end.

(** Two answers to one question are one answer. *)
Ltac io_same :=
  repeat match goal with
    | Hx : ?x = Returned ?a, Hy : ?x = Returned ?b |- _ =>
        lazymatch a with
        | b => fail
        | _ => assert (a = b) by congruence; first [subst a | subst b]
        end
    end.



(** ** The status chain *)

Section Properties.
  Context `{Web3Lib} {W : Type} `{LedgerNode W} `{LocalClock}.

(** C1. For every triple of booleans the status is one of the four statuses,
    which are pairwise distinct, and it is chosen by precedence: settled gives
    SETTLED; otherwise both signatures give SIGNED_BY_BOTH; otherwise the
    farmer's signature gives WAITING_FOR_BUYER; otherwise PENDING.  The
    function is total, so all eight triples have a result. *)
Theorem status_precedence :
  forall farmer_signed buyer_signed settled : bool,
    let status := _get_contract_status farmer_signed buyer_signed settled in
    In status statuses /\ NoDup statuses
    /\ (settled = true -> status = "SETTLED")
    /\ (settled = false -> farmer_signed = true -> buyer_signed = true ->
        status = "SIGNED_BY_BOTH")
    /\ (settled = false -> farmer_signed = true -> buyer_signed = false ->
        status = "WAITING_FOR_BUYER")
    /\ (settled = false -> farmer_signed = false -> status = "PENDING").
Proof.
  intros f b s status; subst status.
  assert (Hdistinct : NoDup statuses).
  { unfold statuses.
    repeat constructor; cbn; intuition discriminate. }
  repeat split; try assumption.
  - destruct s, f, b; cbn; tauto.
  - intros ->; reflexivity.
  - intros -> -> ->; reflexivity.
  - intros -> -> ->; reflexivity.
  - intros -> ->; reflexivity.
Qed.

(** ** The configuration gate *)

(** What [is_configured] answers on a service built by [init], operand by
    operand of its [and] chain. *)
Lemma is_configured_init :
  forall (environ : list (string * string)) (s : W),
    let addr := getenv environ "CONTRACT_ADDRESS" "" in
    let key := getenv environ "PRIVATE_KEY" "" in
    result (is_configured (init environ) s) =
      Returned (if String.eqb addr "" then PyStr addr
                else if String.eqb key "" then PyStr key
                else if is_address addr then PyBool (fst (node_is_connected s))
                else PyBool false).
Proof.
  intros environ s addr key.
  unfold init; fold addr; fold key.
  io_unfold; cbn [contract_address private_key contract truthy].
  destruct (String.eqb addr ""); cbn; [reflexivity|].
  destruct (String.eqb key ""); cbn; [reflexivity|].
  destruct (is_address addr); cbn; [|reflexivity].
  destruct (node_is_connected s); reflexivity.
Qed.

(** C4, as the code has it. On a service built from the environment,
    [is_configured] is falsy as soon as the private key is empty, or the
    contract address is empty, or the address fails [is_address], or the
    node's liveness probe fails; it is [True] exactly when all four pass, and
    it has no other truthy value.  The falsy value is the operand the [and]
    chain stopped at: the empty string when the address is empty, or else the
    key is; [False] when, both being set, the address is not valid; and the
    probe's own answer when address and key are set and the address is
    valid. *)
Theorem is_configured_gate :
  forall (environ : list (string * string)) (s : W),
    let key := getenv environ "PRIVATE_KEY" "" in
    let addr := getenv environ "CONTRACT_ADDRESS" "" in
    let probe := fst (node_is_connected s) in
    exists answer : PyVal,
      result (is_configured (init environ) s) = Returned answer
    /\ (key = "" -> truthy answer = false)
    /\ (addr = "" -> truthy answer = false)
    /\ (is_address addr = false -> truthy answer = false)
    /\ (probe = false -> truthy answer = false)
    /\ (answer = PyBool true <->
        key <> "" /\ addr <> "" /\ is_address addr = true /\ probe = true)
    /\ (truthy answer = true -> answer = PyBool true)
    /\ (addr = "" -> answer = PyStr "")
    /\ (addr <> "" -> key = "" -> answer = PyStr "")
    /\ (addr <> "" -> key <> "" -> is_address addr = false -> answer = PyBool false)
    /\ (addr <> "" -> key <> "" -> is_address addr = true -> answer = PyBool probe).
Proof.
  intros environ s key addr probe.
  rewrite is_configured_init; fold addr; fold key; fold probe.
  eexists; split; [reflexivity|].
  destruct (String.eqb_spec addr "") as [Ha|Ha];
    destruct (String.eqb_spec key "") as [Hk|Hk];
    destruct (is_address addr) eqn:Hv; destruct probe eqn:Hp;
    try rewrite Ha; try rewrite Hk; cbn;
    repeat split; try congruence; try tauto;
    try (intros [? [? [? ?]]]; congruence);
    try (intros; discriminate).
Qed.

(** The value a gate answers with, on any service: the empty string when the
    address or the key is empty, a boolean otherwise. *)
Lemma is_configured_answer :
  forall (self : BlockchainService) (s : W),
    (contract_address self = "" \/ private_key self = "" ->
     result (is_configured self s) = Returned (PyStr ""))
    /\ (contract_address self <> "" -> private_key self <> "" ->
        exists b, result (is_configured self s) = Returned (PyBool b)).
Proof.
  intros self s.
  io_unfold; cbn [truthy].
  destruct (String.eqb_spec (contract_address self) "") as [Ha|Ha]; cbn.
  { split; [intros _; rewrite Ha; reflexivity | intros Hne; contradiction]. }
  destruct (String.eqb_spec (private_key self) "") as [Hk|Hk]; cbn.
  { split; [intros _; rewrite Hk; reflexivity | intros _ Hne; contradiction]. }
  split; [intros [Hempty | Hempty]; contradiction|].
  intros _ _.
  destruct (contract self); cbn.
  - destruct (node_is_connected s) as [b s1]; cbn. exists b; reflexivity.
  - exists false; reflexivity.
Qed.

(** A run of the gate: either it stops at a static operand, falsy, with no
    request, or it probes the node once and answers what the probe said. *)
Lemma is_configured_run :
  forall (self : BlockchainService) (s : W),
    (exists answer, is_configured self s = (Returned answer, s, []) /\ truthy answer = false)
    \/ (exists b s1, node_is_connected s = (b, s1)
                     /\ is_configured self s = (Returned (PyBool b), s1, [EvIsConnected b])).
Proof.
  intros self s.
  io_unfold. io_gate self.
  - left; eexists; split; [reflexivity|]. cbn. rewrite Heqb. reflexivity.
  - left; eexists; split; [reflexivity|]. cbn. rewrite Heqb0. reflexivity.
  - right. destruct (node_is_connected s) as [b s1]. exists b, s1. split; reflexivity.
  - left; eexists; split; reflexivity.
Qed.

Lemma gate_closed_run :
  forall (self : BlockchainService) (s : W),
    gate_open self s = false ->
    exists s1 t answer,
      is_configured self s = (Returned answer, s1, t)
      /\ truthy answer = false
      /\ (t = [] \/ t = [EvIsConnected false]).
Proof.
  intros self s Hgate; unfold gate_open in Hgate.
  destruct (is_configured_run self s) as [[v [Hrun Hv]] | [b [s1 [Hprobe Hrun]]]].
  - exists s, [], v; auto.
  - rewrite Hrun in Hgate; cbn in Hgate; subst b.
    exists s1, [EvIsConnected false], (PyBool false); auto.
Qed.

Lemma gate_open_run :
  forall (self : BlockchainService) (s : W),
    gate_open self s = true ->
    exists s1,
      node_is_connected s = (true, s1)
      /\ is_configured self s = (Returned (PyBool true), s1, [EvIsConnected true]).
Proof.
  intros self s Hgate; unfold gate_open in Hgate.
  destruct (is_configured_run self s) as [[v [Hrun Hv]] | [b [s1 [Hprobe Hrun]]]].
  - rewrite Hrun in Hgate; cbn in Hgate; congruence.
  - rewrite Hrun in Hgate; cbn in Hgate; subst b. exists s1; auto.
Qed.

(** ** Fail-fast behind a closed gate *)

(** C5, as the code has it. When the gate is closed, [create_contract],
    [sign_contract] and [get_contract_details] raise the not-configured
    exception, and the only request the node may have seen is the gate's own
    liveness probe: no nonce query, no gas query, no build, no submission, no
    wait, no read-only call.  The status endpoint does not fail: it reports
    success, zero contracts, and sends nothing but liveness probes; its
    [configured] is the gate's own falsy answer, which is the empty string
    when the contract address or the private key is empty and [False]
    otherwise. *)
Theorem closed_gate_fails_fast :
  forall (self : BlockchainService) (s : W),
    gate_open self s = false ->
    (forall commodity quantity price date farmer,
        let r := create_contract self commodity quantity price date farmer s in
        result r = Raised (Exception not_configured_create)
        /\ (trace r = [] \/ trace r = [EvIsConnected false]))
    /\ (forall contract_id buyer,
        let r := sign_contract self contract_id buyer s in
        result r = Raised (Exception not_configured)
        /\ (trace r = [] \/ trace r = [EvIsConnected false]))
    /\ (forall contract_id,
        let r := get_contract_details self contract_id s in
        result r = Raised (Exception not_configured)
        /\ (trace r = [] \/ trace r = [EvIsConnected false]))
    /\ (let r := blockchain_status self s in
        exists report,
          result r = Returned report
          /\ report_success report = true
          /\ truthy (report_configured report) = false
          /\ report_total_contracts report = Some 0
          /\ Forall (fun ev => request_kind ev = RqIsConnected) (trace r)
          /\ result (is_configured self s) = Returned (report_configured report)
          /\ (contract_address self = "" \/ private_key self = "" ->
              report_configured report = PyStr "")
          /\ (contract_address self <> "" -> private_key self <> "" ->
              report_configured report = PyBool false)).
Proof.
  intros self s Hgate.
  destruct (gate_closed_run self s Hgate) as [s1 [t [answer [Hrun [Hfalsy Ht]]]]].
  assert (Hvalue : (contract_address self = "" \/ private_key self = "" ->
                    answer = PyStr "")
                   /\ (contract_address self <> "" -> private_key self <> "" ->
                       answer = PyBool false)).
  { destruct (is_configured_answer self s) as [Hempty Hset].
    rewrite Hrun in Hempty, Hset; cbn in Hempty, Hset.
    split.
    - intros Hmissing; specialize (Hempty Hmissing); congruence.
    - intros Ha Hk; destruct (Hset Ha Hk) as [b Hb].
      injection Hb as ->. cbn in Hfalsy; rewrite Hfalsy; reflexivity. }
  destruct Hvalue as [Hempty Hset].
  split; [|split; [|split]].
  - intros; subst r.
    unfold create_contract, bind; cbv beta; rewrite Hrun, Hfalsy; cbn.
    rewrite app_nil_r; auto.
  - intros; subst r.
    unfold sign_contract, bind; cbv beta; rewrite Hrun, Hfalsy; cbn.
    rewrite app_nil_r; auto.
  - intros; subst r.
    unfold get_contract_details, bind; cbv beta; rewrite Hrun, Hfalsy; cbn.
    rewrite app_nil_r; auto.
  - intros r; subst r.
    unfold blockchain_status, try_except, bind; cbv beta; rewrite Hrun, Hfalsy; cbn.
    unfold w3_is_connected.
    destruct (node_is_connected s1) as [b s2]; cbn.
    eexists; split; [reflexivity|].
    cbn [report_success report_configured report_total_contracts].
    split; [reflexivity|]. split; [exact Hfalsy|]. split; [reflexivity|].
    split; [|split; [reflexivity | split; [exact Hempty | exact Hset]]].
    apply Forall_app; split.
    + destruct Ht as [-> | ->]; repeat constructor.
    + repeat constructor.
Qed.

(** ** The count read *)

(** C10. [get_total_contracts] always returns a number, never an exception:
    0 behind a closed gate, without asking the ledger; 0 when the read-only
    call raises, or when binding the call raises; and the ledger's own answer
    otherwise.  A failed read and a ledger holding no contract both give 0. *)
Theorem get_total_contracts_never_raises :
  forall (self : BlockchainService) (s : W),
    let r := get_total_contracts self s in
    (exists n, result r = Returned n)
    /\ (gate_open self s = false ->
        result r = Returned 0 /\ times_requested RqCallGetTotalContracts (trace r) = 0%nat)
    /\ (forall e, In (EvCallGetTotalContracts (Raised e)) (trace r) -> result r = Returned 0)
    /\ (forall e, gate_open self s = true -> bind_call getTotalContracts = Raised e ->
        result r = Returned 0)
    /\ (forall n, In (EvCallGetTotalContracts (Returned n)) (trace r) -> result r = Returned n).
Proof.
  intros self s r; subst r.
  destruct (gate_open self s) eqn:Hgate.
  - destruct (gate_open_run self s Hgate) as [s1 [Hprobe Hrun]].
    unfold get_total_contracts, bind; cbv beta; rewrite Hrun.
    io_run; (split; [eexists; reflexivity|]); repeat split; intros; io_trace; reflexivity.
  - destruct (gate_closed_run self s Hgate) as [s1 [t [answer [Hrun [Hfalsy Ht]]]]].
    unfold get_total_contracts, bind; cbv beta; rewrite Hrun, Hfalsy; cbn.
    rewrite app_nil_r.
    split; [eexists; reflexivity|].
    destruct Ht as [-> | ->]; cbn; repeat split; intros; io_trace; reflexivity.
Qed.

(** ** The creation event *)




(** ** The contract read *)


(** C2, as the code has it. When the read-only call raises, for instance on a
    revert, [get_contract_details] raises the generic exception whose text is
    the fixed prefix followed by the text of the ledger's error; when the
    ledger answers with the empty tuple, and timestamp 0 converts to a date,
    it returns the view of that tuple: id 0, quantity 0, total value 0, status
    PENDING. *)
Theorem unknown_id_read :
  forall (self : BlockchainService) (contract_id : Z) (s : W),
    let r := get_contract_details self contract_id s in
    (forall e,
        In (EvCallGetContract contract_id (Raised e)) (trace r) ->
        result r = Raised (Exception ("Error fetching contract details: " ++ exn_str e)))
    /\ (forall epoch,
           In (EvCallGetContract contract_id (Returned empty_tuple)) (trace r) ->
           fromtimestamp 0 = Returned epoch ->
           result r = Returned (empty_view epoch)).
Proof.
  intros self contract_id s r; subst r.
  destruct (gate_open self s) eqn:Hgate.
  - destruct (gate_open_run self s Hgate) as [s1 [Hprobe Hrun]].
    unfold get_contract_details, bind; cbv beta; rewrite Hrun.
    io_run; (split; [intros cause Hin | intros epoch Hin Hepoch]); io_trace;
      try reflexivity; cbn in *; try congruence.
    repeat match goal with
           | Hx : fromtimestamp 0 = Returned ?a |- _ =>
               lazymatch a with
               | epoch => fail
               | _ => assert (a = epoch) by congruence; subst a
               end
           end.
    reflexivity.
  - destruct (gate_closed_run self s Hgate) as [s1 [t [answer [Hrun [Hfalsy Ht]]]]].
    unfold get_contract_details, bind; cbv beta; rewrite Hrun, Hfalsy; cbn.
    rewrite app_nil_r.
    destruct Ht as [-> | ->]; cbn; split; intros; io_trace.
Qed.

(** ** The transaction pipeline *)

(** C9. [farmer_address] and [buyer_address] are dead arguments: two calls
    that differ only there give the same result, leave the node in the same
    state and send the same requests, built and submitted transactions
    included.  The call a transaction is built from is [createContract] of
    commodity, quantity, price and delivery date, with gas 500000, or
    [signAsBuyer] of the contract id, with gas 300000, sent from the account of
    the service's own key. *)
Theorem address_arguments_unused :
  forall (self : BlockchainService) (commodity : string) (quantity price date contract_id : Z)
         (farmer farmer' buyer buyer' : string) (s : W),
    create_contract self commodity quantity price date farmer s =
      create_contract self commodity quantity price date farmer' s
    /\ sign_contract self contract_id buyer s = sign_contract self contract_id buyer' s
    /\ (forall call params o,
           In (EvBuildTransaction call params o)
              (trace (create_contract self commodity quantity price date farmer s)) ->
           call = createContract commodity quantity price date
           /\ p_gas params = 500000
           /\ from_key (private_key self) = Returned {| address := p_from params |})
    /\ (forall call params o,
           In (EvBuildTransaction call params o)
              (trace (sign_contract self contract_id buyer s)) ->
           call = signAsBuyer contract_id
           /\ p_gas params = 300000
           /\ from_key (private_key self) = Returned {| address := p_from params |}).
Proof.
  intros self commodity quantity price date contract_id farmer farmer' buyer buyer' s.
  split; [reflexivity|]. split; [reflexivity|].
  destruct (gate_open self s) eqn:Hgate.
  - destruct (gate_open_run self s Hgate) as [s1 [Hprobe Hrun]].
    split.
    + unfold create_contract, bind; cbv beta; rewrite Hrun.
      io_run; intros call params o Hin; io_trace; cbn;
        repeat split; try reflexivity;
        match goal with a : LocalAccount |- _ => destruct a; reflexivity end.
    + unfold sign_contract, bind; cbv beta; rewrite Hrun.
      io_run; intros call params o Hin; io_trace; cbn;
        repeat split; try reflexivity;
        match goal with a : LocalAccount |- _ => destruct a; reflexivity end.
  - destruct (gate_closed_run self s Hgate) as [s1 [t [answer [Hrun [Hfalsy Ht]]]]].
    split.
    + unfold create_contract, bind; cbv beta; rewrite Hrun, Hfalsy; cbn.
      rewrite app_nil_r.
      destruct Ht as [-> | ->]; cbn; intros; io_trace.
    + unfold sign_contract, bind; cbv beta; rewrite Hrun, Hfalsy; cbn.
      rewrite app_nil_r.
      destruct Ht as [-> | ->]; cbn; intros; io_trace.
Qed.

(** The nonce discipline holds of any run of the pipeline. *)
Lemma create_contract_nonce :
  forall (self : BlockchainService) (commodity : string) (quantity price date : Z)
         (farmer : string) (s : W),
    nonce_from_default_block (trace (create_contract self commodity quantity price date farmer s)).
Proof.
  intros self commodity quantity price date farmer s.
  unfold nonce_from_default_block.
  destruct (gate_open self s) eqn:Hgate.
  - destruct (gate_open_run self s Hgate) as [s1 [Hprobe Hrun]].
    unfold create_contract, bind; cbv beta; rewrite Hrun.
    io_run; (split; [cbn; lia|]); split; intros; io_trace; cbn; auto 10.
  - destruct (gate_closed_run self s Hgate) as [s1 [t [answer [Hrun [Hfalsy Ht]]]]].
    unfold create_contract, bind; cbv beta; rewrite Hrun, Hfalsy; cbn.
    rewrite app_nil_r.
    destruct Ht as [-> | ->]; cbn; (split; [lia|]); split; intros; io_trace.
Qed.

Lemma sign_contract_nonce :
  forall (self : BlockchainService) (contract_id : Z) (buyer : string) (s : W),
    nonce_from_default_block (trace (sign_contract self contract_id buyer s)).
Proof.
  intros self contract_id buyer s.
  unfold nonce_from_default_block.
  destruct (gate_open self s) eqn:Hgate.
  - destruct (gate_open_run self s Hgate) as [s1 [Hprobe Hrun]].
    unfold sign_contract, bind; cbv beta; rewrite Hrun.
    io_run; (split; [cbn; lia|]); split; intros; io_trace; cbn; auto 10.
  - destruct (gate_closed_run self s Hgate) as [s1 [t [answer [Hrun [Hfalsy Ht]]]]].
    unfold sign_contract, bind; cbv beta; rewrite Hrun, Hfalsy; cbn.
    rewrite app_nil_r.
    destruct Ht as [-> | ->]; cbn; (split; [lia|]); split; intros; io_trace.
Qed.

(** C8, as the code has it. Each mutating call asks the node for the signing
    account's transaction count at most once, at the default block [Latest],
    which counts the transactions in blocks and not those still pending; the
    transaction it builds carries exactly the count the node answered.
    Nothing is kept between calls. *)
Theorem nonce_is_count_at_latest_block :
  forall (self : BlockchainService) (commodity : string) (quantity price date contract_id : Z)
         (farmer buyer : string) (s : W),
    default_block = Latest
    /\ nonce_from_default_block
         (trace (create_contract self commodity quantity price date farmer s))
    /\ nonce_from_default_block (trace (sign_contract self contract_id buyer s)).
Proof.
  intros; split; [reflexivity|].
  split; [apply create_contract_nonce | apply sign_contract_nonce].
Qed.

(** ** How failures surface *)




(** ** More on the pipeline *)

(** X1. Whenever the wait of a [sign_contract] call returned a receipt, the
    call succeeds and reports that receipt's transaction hash, block number
    and gas used. *)
Theorem sign_contract_reports_receipt :
  forall (self : BlockchainService) (contract_id : Z) (buyer : string) (s : W)
         (tx_hash : HexBytes) (receipt : Receipt),
    let r := sign_contract self contract_id buyer s in
    In (EvWaitForReceipt tx_hash (Returned receipt)) (trace r) ->
    result r = Returned {| sr_success := true;
                           sr_transaction_hash := hex tx_hash;
                           sr_block_number := blockNumber receipt;
                           sr_gas_used := gasUsed receipt |}.
Proof.
  intros self contract_id buyer s tx_hash receipt r; subst r.
  destruct (gate_open self s) eqn:Hgate.
  - destruct (gate_open_run self s Hgate) as [s1 [Hprobe Hrun]].
    unfold sign_contract, bind; cbv beta; rewrite Hrun.
    io_run; intros Hin; io_trace; reflexivity.
  - destruct (gate_closed_run self s Hgate) as [s1 [t [answer [Hrun [Hfalsy Ht]]]]].
    unfold sign_contract, bind; cbv beta; rewrite Hrun, Hfalsy; cbn.
    rewrite app_nil_r.
    destruct Ht as [-> | ->]; cbn; intros Hin; io_trace.
Qed.

(** X2. The requests of a mutating call always come in the one order
    liveness probe, count, gas price, build, submit, wait: the kinds of the
    requests sent are an initial segment of that sequence, cut where the run
    stopped. *)
Theorem pipeline_requests_in_order :
  forall (self : BlockchainService) (commodity : string) (quantity price date contract_id : Z)
         (farmer buyer : string) (s : W),
    (exists rest,
        pipeline_order =
        (map request_kind
             (trace (create_contract self commodity quantity price date farmer s)) ++ rest)%list)
    /\ (exists rest,
        pipeline_order =
        (map request_kind (trace (sign_contract self contract_id buyer s)) ++ rest)%list).
Proof.
  intros self commodity quantity price date contract_id farmer buyer s.
  destruct (gate_open self s) eqn:Hgate.
  - destruct (gate_open_run self s Hgate) as [s1 [Hprobe Hrun]].
    split.
    + unfold create_contract, bind; cbv beta; rewrite Hrun.
      io_run; eexists; unfold pipeline_order; reflexivity.
    + unfold sign_contract, bind; cbv beta; rewrite Hrun.
      io_run; eexists; unfold pipeline_order; reflexivity.
  - destruct (gate_closed_run self s Hgate) as [s1 [t [answer [Hrun [Hfalsy Ht]]]]].
    unfold create_contract, sign_contract, bind; cbv beta.
    rewrite Hrun, Hfalsy; cbn. rewrite app_nil_r.
    destruct Ht as [-> | ->]; split; eexists; unfold pipeline_order; reflexivity.
Qed.

Lemma create_contract_data_flow :
  forall (self : BlockchainService) (commodity : string) (quantity price date : Z)
         (farmer : string) (s : W),
    pipeline_data_flow (private_key self)
      (trace (create_contract self commodity quantity price date farmer s)).
Proof.
  intros self commodity quantity price date farmer s; unfold pipeline_data_flow.
  destruct (gate_open self s) eqn:Hgate.
  - destruct (gate_open_run self s Hgate) as [s1 [Hprobe Hrun]].
    unfold create_contract, bind; cbv beta; rewrite Hrun.
    io_run; repeat apply conj; intros; io_trace; cbn; eauto 12.
  - destruct (gate_closed_run self s Hgate) as [s1 [t [answer [Hrun [Hfalsy Ht]]]]].
    unfold create_contract, bind; cbv beta; rewrite Hrun, Hfalsy; cbn.
    rewrite app_nil_r.
    destruct Ht as [-> | ->]; cbn; repeat apply conj; intros; io_trace.
Qed.

Lemma sign_contract_data_flow :
  forall (self : BlockchainService) (contract_id : Z) (buyer : string) (s : W),
    pipeline_data_flow (private_key self) (trace (sign_contract self contract_id buyer s)).
Proof.
  intros self contract_id buyer s; unfold pipeline_data_flow.
  destruct (gate_open self s) eqn:Hgate.
  - destruct (gate_open_run self s Hgate) as [s1 [Hprobe Hrun]].
    unfold sign_contract, bind; cbv beta; rewrite Hrun.
    io_run; repeat apply conj; intros; io_trace; cbn; eauto 12.
  - destruct (gate_closed_run self s Hgate) as [s1 [t [answer [Hrun [Hfalsy Ht]]]]].
    unfold sign_contract, bind; cbv beta; rewrite Hrun, Hfalsy; cbn.
    rewrite app_nil_r.
    destruct Ht as [-> | ->]; cbn; repeat apply conj; intros; io_trace.
Qed.

(** X3. In every run of [create_contract] and of [sign_contract], a
    transaction is built with the gas price the node quoted in that run, a raw
    transaction handed to the node is the built transaction signed with the
    service's private key, and a hash waited on is the hash the node returned
    for the submission. *)
Theorem pipeline_stages_chain :
  forall (self : BlockchainService) (commodity : string) (quantity price date contract_id : Z)
         (farmer buyer : string) (s : W),
    pipeline_data_flow (private_key self)
      (trace (create_contract self commodity quantity price date farmer s))
    /\ pipeline_data_flow (private_key self)
         (trace (sign_contract self contract_id buyer s)).
Proof.
  intros; split; [apply create_contract_data_flow | apply sign_contract_data_flow].
Qed.

(** X4. The reads never transact: [get_contract_details],
    [get_total_contracts] and the status endpoint send nothing but liveness
    probes and read-only calls, so no count query, gas query, build,
    submission or wait. *)
Theorem reads_never_transact :
  forall (self : BlockchainService) (contract_id : Z) (s : W),
    Forall (fun ev => is_read_only (request_kind ev) = true)
           (trace (get_contract_details self contract_id s))
    /\ Forall (fun ev => is_read_only (request_kind ev) = true)
              (trace (get_total_contracts self s))
    /\ Forall (fun ev => is_read_only (request_kind ev) = true)
              (trace (blockchain_status self s)).
Proof.
  intros self contract_id s.
  assert (Htotal : forall s0, Forall (fun ev => is_read_only (request_kind ev) = true)
                                     (trace (get_total_contracts self s0))).
  { intros s0. destruct (gate_open self s0) eqn:Hgate.
    - destruct (gate_open_run self s0 Hgate) as [s1 [Hprobe Hrun]].
      unfold get_total_contracts, bind; cbv beta; rewrite Hrun.
      io_run; repeat constructor.
    - destruct (gate_closed_run self s0 Hgate) as [s1 [t [answer [Hrun [Hfalsy Ht]]]]].
      unfold get_total_contracts, bind; cbv beta; rewrite Hrun, Hfalsy; cbn.
      rewrite app_nil_r. destruct Ht as [-> | ->]; repeat constructor. }
  split; [|split; [apply Htotal|]].
  - destruct (gate_open self s) eqn:Hgate.
    + destruct (gate_open_run self s Hgate) as [s1 [Hprobe Hrun]].
      unfold get_contract_details, bind; cbv beta; rewrite Hrun.
      io_run; repeat constructor.
    + destruct (gate_closed_run self s Hgate) as [s1 [t [answer [Hrun [Hfalsy Ht]]]]].
      unfold get_contract_details, bind; cbv beta; rewrite Hrun, Hfalsy; cbn.
      rewrite app_nil_r. destruct Ht as [-> | ->]; repeat constructor.
  - destruct (gate_open self s) eqn:Hgate.
    + destruct (gate_open_run self s Hgate) as [s1 [Hprobe Hrun]].
      unfold blockchain_status, try_except, bind; cbv beta; rewrite Hrun; cbn.
      specialize (Htotal s1).
      destruct (get_total_contracts self s1) as [[[n|e] s2] t2]; cbn in *.
      * unfold w3_is_connected; destruct (node_is_connected s2) as [b s3]; cbn.
        constructor; [reflexivity|].
        apply Forall_app; split; [exact Htotal | repeat constructor].
      * constructor; [reflexivity|].
        rewrite app_nil_r; exact Htotal.
    + destruct (gate_closed_run self s Hgate) as [s1 [t [answer [Hrun [Hfalsy Ht]]]]].
      unfold blockchain_status, try_except, bind; cbv beta; rewrite Hrun, Hfalsy; cbn.
      unfold w3_is_connected; destruct (node_is_connected s1) as [b s2]; cbn.
      apply Forall_app; split; [destruct Ht as [-> | ->]|]; repeat constructor.
Qed.

(** ** Edges of the service *)

(** A service built from an environment that lacks a usable address or key
    answers the gate without asking the node. *)
Lemma init_static_gate :
  forall (environ : list (string * string)) (s : W),
    getenv environ "CONTRACT_ADDRESS" "" = ""
    \/ getenv environ "PRIVATE_KEY" "" = ""
    \/ is_address (getenv environ "CONTRACT_ADDRESS" "") = false ->
    exists answer,
      is_configured (init environ) s = (Returned answer, s, [])
      /\ truthy answer = false.
Proof.
  intros environ s Hmissing.
  unfold init.
  set (addr := getenv environ "CONTRACT_ADDRESS" "") in *.
  set (key := getenv environ "PRIVATE_KEY" "") in *.
  io_unfold; cbn [contract_address private_key contract truthy].
  destruct (String.eqb_spec addr "") as [Ha|Ha]; cbn.
  { rewrite Ha; eexists; split; reflexivity. }
  destruct (String.eqb_spec key "") as [Hk|Hk]; cbn.
  { rewrite Hk; eexists; split; reflexivity. }
  destruct Hmissing as [Hm | [Hm | Hm]]; try contradiction.
  rewrite Hm; cbn.
  eexists; split; reflexivity.
Qed.

(** X5. A service built from an environment in which the contract address is
    unset or empty, or the private key is unset or empty, or the address is
    not a valid address, never contacts the node from its operations: the
    three contract operations raise not-configured and [get_total_contracts]
    returns 0, each with an empty trace and the node state untouched. *)
Theorem unconfigured_environment_is_silent :
  forall (environ : list (string * string)) (s : W),
    getenv environ "CONTRACT_ADDRESS" "" = ""
    \/ getenv environ "PRIVATE_KEY" "" = ""
    \/ is_address (getenv environ "CONTRACT_ADDRESS" "") = false ->
    (forall commodity quantity price date farmer,
        create_contract (init environ) commodity quantity price date farmer s
        = (Raised (Exception not_configured_create), s, []))
    /\ (forall contract_id buyer,
        sign_contract (init environ) contract_id buyer s
        = (Raised (Exception not_configured), s, []))
    /\ (forall contract_id,
        get_contract_details (init environ) contract_id s
        = (Raised (Exception not_configured), s, []))
    /\ get_total_contracts (init environ) s = (Returned 0, s, []).
Proof.
  intros environ s Hmissing.
  destruct (init_static_gate environ s Hmissing) as [answer [Hrun Hfalsy]].
  repeat apply conj; intros;
    unfold create_contract, sign_contract, get_contract_details, get_total_contracts, bind;
    cbv beta; rewrite Hrun, Hfalsy; reflexivity.
Qed.

(** X6. A call can fail after its transaction has left: when the wait of
    [create_contract] or [sign_contract] raises, the call raises the wrapped
    error, and the trace shows the raw transaction accepted by the node under
    the very hash that was waited on. *)
Theorem failed_wait_follows_submission :
  forall (self : BlockchainService) (commodity : string) (quantity price date contract_id : Z)
         (farmer buyer : string) (s : W) (tx_hash : HexBytes) (e : PyExn),
    let created := create_contract self commodity quantity price date farmer s in
    let signed := sign_contract self contract_id buyer s in
    (In (EvWaitForReceipt tx_hash (Raised e)) (trace created) ->
     result created = Raised (Exception ("Error creating contract: " ++ exn_str e))
     /\ exists raw, In (EvSendRawTransaction raw (Returned tx_hash)) (trace created))
    /\ (In (EvWaitForReceipt tx_hash (Raised e)) (trace signed) ->
        result signed = Raised (Exception ("Error signing contract: " ++ exn_str e))
        /\ exists raw, In (EvSendRawTransaction raw (Returned tx_hash)) (trace signed)).
Proof.
  intros self commodity quantity price date contract_id farmer buyer s tx_hash cause
         created signed; subst created signed.
  destruct (gate_open self s) eqn:Hgate.
  - destruct (gate_open_run self s Hgate) as [s1 [Hprobe Hrun]].
    split.
    + unfold create_contract, bind; cbv beta; rewrite Hrun.
      io_run; intros Hin; io_trace; (split; [reflexivity|]); cbn; eauto 12.
    + unfold sign_contract, bind; cbv beta; rewrite Hrun.
      io_run; intros Hin; io_trace; (split; [reflexivity|]); cbn; eauto 12.
  - destruct (gate_closed_run self s Hgate) as [s1 [t [answer [Hrun [Hfalsy Ht]]]]].
    unfold create_contract, sign_contract, bind; cbv beta.
    rewrite Hrun, Hfalsy; cbn. rewrite app_nil_r.
    destruct Ht as [-> | ->]; split; intros Hin; cbn in Hin; io_trace.
Qed.

(** X7. A view returned by [get_contract_details] mirrors the tuple the
    ledger answered with: id, parties, commodity, quantity, price, delivery
    timestamp and the three flags are copied; the status is the one derived
    from the tuple's flags; and the two date texts are the local dates of the
    tuple's two timestamps. *)
Theorem view_mirrors_tuple :
  forall (self : BlockchainService) (contract_id : Z) (s : W) (data : ContractData)
         (view : ContractView),
    let r := get_contract_details self contract_id s in
    In (EvCallGetContract contract_id (Returned data)) (trace r) ->
    result r = Returned view ->
    v_contract_id view = cd_id data
    /\ v_farmer_address view = cd_farmer data
    /\ v_buyer_address view = cd_buyer data
    /\ v_commodity view = cd_commodity data
    /\ v_delivery_date_timestamp view = cd_deliveryDate data
    /\ v_farmer_signed view = cd_farmerSigned data
    /\ v_buyer_signed view = cd_buyerSigned data
    /\ v_settled view = cd_settled data
    /\ v_status view =
       _get_contract_status (v_farmer_signed view) (v_buyer_signed view) (v_settled view)
    /\ (exists delivery created,
           fromtimestamp (cd_deliveryDate data) = Returned delivery
           /\ fromtimestamp (cd_createdAt data) = Returned created
           /\ v_delivery_date view = strftime_Ymd delivery
           /\ v_created_at view = strftime_YmdHMS created).
Proof.
  intros self contract_id s data view r; subst r.
  destruct (gate_open self s) eqn:Hgate.
  - destruct (gate_open_run self s Hgate) as [s1 [Hprobe Hrun]].
    unfold get_contract_details, bind; cbv beta; rewrite Hrun.
    io_run; intros Hin Hview; io_trace; try congruence; io_same; cbn.
    all: repeat split; try reflexivity.
    all: do 2 eexists; repeat split; reflexivity.
  - destruct (gate_closed_run self s Hgate) as [s1 [t [answer [Hrun [Hfalsy Ht]]]]].
    unfold get_contract_details, bind; cbv beta; rewrite Hrun, Hfalsy; cbn.
    rewrite app_nil_r.
    destruct Ht as [-> | ->]; cbn; intros Hin; io_trace.
Qed.

(** X8. A stored contract can be unreadable: when the ledger answers with a
    tuple whose delivery timestamp, or else whose creation timestamp, does
    not convert to a local date, [get_contract_details] returns no view and
    raises the wrapped conversion error. *)
Theorem unconvertible_date_fails_read :
  forall (self : BlockchainService) (contract_id : Z) (s : W) (data : ContractData)
         (e : PyExn),
    let r := get_contract_details self contract_id s in
    In (EvCallGetContract contract_id (Returned data)) (trace r) ->
    (fromtimestamp (cd_deliveryDate data) = Raised e
     \/ (exists delivery, fromtimestamp (cd_deliveryDate data) = Returned delivery)
        /\ fromtimestamp (cd_createdAt data) = Raised e) ->
    result r = Raised (Exception ("Error fetching contract details: " ++ exn_str e)).
Proof.
  intros self contract_id s data cause r; subst r.
  destruct (gate_open self s) eqn:Hgate.
  - destruct (gate_open_run self s Hgate) as [s1 [Hprobe Hrun]].
    unfold get_contract_details, bind; cbv beta; rewrite Hrun.
    io_run; intros Hin Hbad; io_trace;
      repeat match goal with Hex : exists _, _ |- _ => destruct Hex end;
      congruence.
  - destruct (gate_closed_run self s Hgate) as [s1 [t [answer [Hrun [Hfalsy Ht]]]]].
    unfold get_contract_details, bind; cbv beta; rewrite Hrun, Hfalsy; cbn.
    rewrite app_nil_r.
    destruct Ht as [-> | ->]; cbn; intros Hin; io_trace.
Qed.

(** ** The status endpoint *)

(** A run of [get_total_contracts]: a number, which is 0 or what the ledger
    answered. *)
Lemma get_total_contracts_run :
  forall (self : BlockchainService) (s : W),
    exists n s1 t,
      get_total_contracts self s = (Returned n, s1, t)
      /\ (n = 0 \/ In (EvCallGetTotalContracts (Returned n)) t).
Proof.
  intros self s.
  destruct (gate_open self s) eqn:Hgate.
  - destruct (gate_open_run self s Hgate) as [s1 [Hprobe Hrun]].
    unfold get_total_contracts, bind; cbv beta; rewrite Hrun.
    io_run; do 3 eexists; (split; [reflexivity|]); cbn; auto.
  - destruct (gate_closed_run self s Hgate) as [s1 [t [answer [Hrun [Hfalsy Ht]]]]].
    unfold get_total_contracts, bind; cbv beta; rewrite Hrun, Hfalsy; cbn.
    do 3 eexists; split; [reflexivity | auto].
Qed.

(** X9. The status endpoint answers for every service and every node: it
    always returns the success dictionary, never the failure one.  Its
    [connected] is the answer of a liveness probe of that same request.  When
    [configured] is truthy it is [True], the contract address is shown and the
    total is 0 or the count the ledger answered; when [configured] is falsy no
    address is shown and the total is 0. *)
Theorem blockchain_status_always_reports :
  forall (self : BlockchainService) (s : W),
    let r := blockchain_status self s in
    exists configured connected shown total message,
      result r = Returned (StatusReportOk configured connected (rpc_url self)
                             shown total message)
      /\ In (EvIsConnected connected) (trace r)
      /\ (truthy configured = true ->
          configured = PyBool true
          /\ shown = Some (contract_address self)
          /\ message = "Blockchain service is operational"
          /\ (total = 0 \/ In (EvCallGetTotalContracts (Returned total)) (trace r)))
      /\ (truthy configured = false ->
          shown = None /\ total = 0
          /\ message = "Blockchain not configured. Set CONTRACT_ADDRESS and PRIVATE_KEY in .env").
Proof.
  intros self s r; subst r.
  destruct (gate_open self s) eqn:Hgate.
  - destruct (gate_open_run self s Hgate) as [s1 [Hprobe Hrun]].
    unfold blockchain_status, try_except, bind; cbv beta; rewrite Hrun; cbn.
    destruct (get_total_contracts_run self s1) as [n [s2 [t2 [Htotal Hn]]]].
    rewrite Htotal; cbn.
    unfold w3_is_connected; destruct (node_is_connected s2) as [b s3]; cbn.
    do 5 eexists; split; [reflexivity|].
    split; [right; apply in_or_app; right; left; reflexivity|].
    split; [|discriminate].
    intros _; repeat split.
    destruct Hn as [Hn | Hn]; [left; exact Hn|].
    right; right; apply in_or_app; left; exact Hn.
  - destruct (gate_closed_run self s Hgate) as [s1 [t [answer [Hrun [Hfalsy Ht]]]]].
    unfold blockchain_status, try_except, bind; cbv beta; rewrite Hrun, Hfalsy; cbn.
    unfold w3_is_connected; destruct (node_is_connected s1) as [b s2]; cbn.
    do 5 eexists; split; [reflexivity|].
    split; [apply in_or_app; right; left; reflexivity|].
    split; [rewrite Hfalsy; discriminate|].
    intros _; repeat split.
Qed.

(** The call a [create_contract] run builds is the one of its arguments. *)
Lemma create_contract_builds_its_arguments :
  forall (self : BlockchainService) (commodity : string) (quantity price date : Z)
         (farmer : string) (s : W) call params o,
    In (EvBuildTransaction call params o)
       (trace (create_contract self commodity quantity price date farmer s)) ->
    call = createContract commodity quantity price date.
Proof.
  intros self commodity quantity price date farmer s call params o.
  destruct (gate_open self s) eqn:Hgate.
  - destruct (gate_open_run self s Hgate) as [s1 [Hprobe Hrun]].
    unfold create_contract, bind; cbv beta; rewrite Hrun.
    io_run; intros Hin; io_trace; reflexivity.
  - destruct (gate_closed_run self s Hgate) as [s1 [t [answer [Hrun [Hfalsy Ht]]]]].
    unfold create_contract, bind; cbv beta; rewrite Hrun, Hfalsy; cbn.
    rewrite app_nil_r.
    destruct Ht as [-> | ->]; cbn; intros Hin; io_trace.
Qed.





End Properties.







(** ** Runs against the reference environment *)

Section Scenarios.
#[local] Existing Instance fake_lib.
#[local] Existing Instance fake_node.
#[local] Existing Instance utc_clock.

(** With no private key in the environment the gate is closed and
  [create_contract] fails at once, the ledger untouched. *)
Lemma closed_gate_witness :
gate_open keyless_service (fresh_ledger true) = false
/\ result (create_contract keyless_service "Soybean" 100 5000 1748736000 "0xABC"
             (fresh_ledger true))
   = Raised (Exception not_configured_create).
Proof.
split; [reflexivity|].
apply (proj1 (closed_gate_fails_fast keyless_service (fresh_ledger true) eq_refl)).
Defined.

(** C4 fails on the code: with the address set and the private key missing,
    [is_configured] does not return [False]; it returns the empty key itself,
    the empty string. *)
Lemma empty_key_answers_empty_string :
  private_key keyless_service = ""
  /\ result (is_configured keyless_service (fresh_ledger true)) = Returned (PyStr "")
  /\ PyStr "" <> PyBool false.
Proof.
  split; [reflexivity|]. split; [reflexivity|]. discriminate.
Qed.

(** C5 fails on the code in its last part: with the private key missing the
    status endpoint succeeds, but the [configured] it reports is the empty
    string, not [False]. *)
Lemma status_reports_empty_string :
  result (blockchain_status keyless_service (fresh_ledger true)) =
    Returned (StatusReportOk (PyStr "") true "https://rpc-mumbai.maticvigil.com" None 0
                "Blockchain not configured. Set CONTRACT_ADDRESS and PRIVATE_KEY in .env")
  /\ PyStr "" <> PyBool false.
Proof.
  split; [vm_compute; reflexivity | discriminate].
Qed.



(** The product is not cut to the ledger's 256 bits either. *)
Example total_value_past_uint256 :
forall view : ContractView,
  result (get_contract_details keyed_service 1
            {| fl_connected := true; fl_mined := []; fl_pool := []; fl_gas_price := 30;
               fl_mines := true; fl_emits := [];
               fl_contracts :=
                 [{| cd_id := 1; cd_farmer := "0xSIGNER"; cd_buyer := zero_address;
                     cd_commodity := "Soybean";
                     cd_quantity := 2 ^ 256 - 1; cd_pricePerUnit := 2 ^ 256 - 1;
                     cd_deliveryDate := 1748736000; cd_farmerSigned := true;
                     cd_buyerSigned := false; cd_settled := false;
                     cd_createdAt := 1746057600 |}] |}) = Returned view ->
  v_total_value view = 2 ^ 512 - 2 ^ 257 + 1 /\ 2 ^ 256 <= v_total_value view.
Proof.
intros view Hview.
vm_compute in Hview; injection Hview as <-.
split; [reflexivity | cbn; lia].
Qed.

(** C2 fails on the code: a ledger that answers an unknown id with the empty
  tuple makes [get_contract_details] return a view, all zeros, status
  PENDING, dated at the epoch; nothing marks it as not found. *)
Lemma unknown_id_returns_zero_view :
fst (node_call_getContract deployed_at 99 (fresh_ledger true)) = Returned empty_tuple
/\ result (get_contract_details keyed_service 99 (fresh_ledger true)) =
   Returned {| v_contract_id := 0;
               v_farmer_address := zero_address;
               v_buyer_address := zero_address;
               v_commodity := "";
               v_quantity := 0;
               v_price_per_unit := 0;
               v_delivery_date := "1970-01-01";
               v_delivery_date_timestamp := 0;
               v_farmer_signed := false;
               v_buyer_signed := false;
               v_settled := false;
               v_created_at := "1970-01-01 00:00:00";
               v_total_value := 0;
               v_status := "PENDING" |}.
Proof.
split; vm_compute; reflexivity.
Qed.


(** C8 fails on the code: the first call times out waiting, its transaction
  still in the pool; the next call asks for the count at [Latest], is told 0
  again though the count with pending transactions is 1, and submits a
  second transaction with nonce 0. *)
Lemma successive_calls_share_a_nonce :
let first := create_contract keyed_service "Soybean" 100 5000 1748736000 "0xABC"
               (fresh_ledger false) in
let second := create_contract keyed_service "Groundnut" 50 7000 1751328000 "0xABC"
                (final first) in
nonces_used (trace first) = [0]
/\ fl_pool (final first) = ["signed:0xSIGNER:0:createContract(Soybean)"]
/\ fake_count Pending (final first) = 1
/\ nonces_used (trace second) = [0]
/\ submitted (trace second) = ["signed:0xSIGNER:0:createContract(Groundnut)"].
Proof.
repeat split; vm_compute; reflexivity.
Qed.
End Scenarios.

(** ** The HTTP layer *)

Section ApiProperties.
Context `{Web3Lib} {W : Type} `{LedgerNode W} `{LocalClock} `{DateParser}.

(** X10. POST /create_contract parses the delivery date before it touches the
    service: when the date text does not parse, the answer is status 500 with
    the parser's message, nothing is asked of the node, not even the gate's
    liveness probe, and the node state is as before. *)
Theorem unparsable_date_never_reaches_ledger :
  forall (self : BlockchainService) (request : CreateContractRequest) (s : W) (e : PyExn),
    strptime_timestamp (rq_delivery_date request) = Raised e ->
    api_create_contract self request s = (Returned (HttpError 500 (exn_str e)), s, []).
Proof.
  intros self request s e Hparse.
  unfold api_create_contract, try_except, bind, lift; rewrite Hparse; reflexivity.
Qed.

(** X11. The handlers of the three contract endpoints let no exception
    escape and answer with status 200 or 500 only: 200 with the service's
    result as data when the service call returns, 500 with the exception's
    text as detail when it raises.  They add no request of their own: the
    trace and final node state are those of the service call. *)
Theorem contract_endpoints_answer_200_or_500 :
  forall (self : BlockchainService) (create : CreateContractRequest)
         (sign : SignContractRequest) (contract_id delivery_timestamp : Z) (s : W),
    strptime_timestamp (rq_delivery_date create) = Returned delivery_timestamp ->
    let created := create_contract self (rq_commodity create) (rq_quantity create)
                     (rq_price_per_unit create) delivery_timestamp
                     (rq_farmer_address create) s in
    let signed := sign_contract self (rq_contract_id sign) (rq_buyer_address sign) s in
    let read := get_contract_details self contract_id s in
    api_create_contract self create s =
      (Returned match result created with
                | Returned data =>
                    Http200 {| body_success := true;
                               body_message := Some "Contract created successfully on blockchain";
                               body_data := data |}
                | Raised e => HttpError 500 (exn_str e)
                end, final created, trace created)
    /\ api_sign_contract self sign s =
      (Returned match result signed with
                | Returned data =>
                    Http200 {| body_success := true;
                               body_message := Some "Contract signed successfully";
                               body_data := data |}
                | Raised e => HttpError 500 (exn_str e)
                end, final signed, trace signed)
    /\ api_get_contract self contract_id s =
      (Returned match result read with
                | Returned data =>
                    Http200 {| body_success := true; body_message := None;
                               body_data := data |}
                | Raised e => HttpError 500 (exn_str e)
                end, final read, trace read).
Proof.
  intros self create sign contract_id delivery_timestamp s Hparse created signed read.
  subst created signed read.
  unfold api_create_contract, api_sign_contract, api_get_contract.
  unfold try_except, bind, lift, ret; cbv beta.
  rewrite Hparse; cbv beta iota.
  repeat split.
  - destruct (create_contract _ _ _ _ _ _ s) as [[[data|e] s1] t]; cbn;
      rewrite app_nil_r; reflexivity.
  - destruct (sign_contract _ _ _ s) as [[[data|e] s1] t]; cbn;
      rewrite app_nil_r; reflexivity.
  - destruct (get_contract_details _ _ s) as [[[data|e] s1] t]; cbn;
      rewrite app_nil_r; reflexivity.
Qed.


(** X13. The delivery date a contract is created with is the parsed date of
    the request: any transaction POST /create_contract has built carries the
    call [createContract] of the request's commodity, quantity and price and
    of the timestamp its delivery date parsed to. *)
Theorem api_create_builds_parsed_date :
  forall (self : BlockchainService) (request : CreateContractRequest) (s : W)
         (call : ContractCall) (params : TxParams) (o : Outcome Transaction),
    In (EvBuildTransaction call params o) (trace (api_create_contract self request s)) ->
    exists delivery_timestamp,
      strptime_timestamp (rq_delivery_date request) = Returned delivery_timestamp
      /\ call = createContract (rq_commodity request) (rq_quantity request)
                  (rq_price_per_unit request) delivery_timestamp.
Proof.
  intros self request s call params o.
  unfold api_create_contract.
  unfold try_except, bind, lift, ret, raise; cbv beta.
  destruct (strptime_timestamp (rq_delivery_date request)) as [ts|e]; cbv beta iota.
  - intros Hin. exists ts; split; [reflexivity|].
    apply (create_contract_builds_its_arguments self (rq_commodity request)
             (rq_quantity request) (rq_price_per_unit request) ts
             (rq_farmer_address request) s call params o).
    destruct (create_contract _ _ _ _ _ _ s) as [[[data|e] s1] t]; cbn in *;
      rewrite app_nil_r in Hin; exact Hin.
  - cbn; intros [].
Qed.
End ApiProperties.

(** ** The forecasting model and its endpoint *)

(** X14. [predict_prices] raises nothing but the generic Exception, its text
    the fixed prefix followed by the text of what went wrong inside: the
    ValueError for a commodity with no rows, or the error of the fit.  For a
    commodity with no rows the fit is never run and the text is fixed. *)
Theorem predict_prices_wraps_every_error :
  forall (Date Price Forecast : Type)
         (fit_forecast : string -> list (PriceRow Date Price) -> Z -> Outcome Forecast)
         (df : list (PriceRow Date Price)) (commodity : string) (days : Z),
    (forall e,
        predict_prices fit_forecast df commodity days = Raised e ->
        exn_class e = "Exception"
        /\ exists cause,
            exn_str e = "Error in price prediction: " ++ exn_str cause
            /\ ((of_commodity df commodity = []
                 /\ cause = mkExn "ValueError" ("No data found for commodity: " ++ commodity))
                \/ fit_forecast commodity (of_commodity df commodity) days = Raised cause))
    /\ (of_commodity df commodity = [] ->
        predict_prices fit_forecast df commodity days =
        Raised (Exception ("Error in price prediction: No data found for commodity: "
                             ++ commodity))).
Proof.
  intros Date Price Forecast fit_forecast df commodity days.
  unfold predict_prices.
  destruct (of_commodity df commodity) as [|row rows] eqn:Hrows; cbn -[String.append].
  - split; [|reflexivity].
    intros e He; injection He as <-.
    split; [reflexivity|].
    exists (mkExn "ValueError" ("No data found for commodity: " ++ commodity)).
    split; [reflexivity|]. left; split; reflexivity.
  - split; [|discriminate].
    intros e He.
    destruct (fit_forecast commodity (row :: rows) days) as [predictions|cause];
      [discriminate|].
    injection He as <-.
    split; [reflexivity|].
    exists cause; split; [reflexivity|]. right; reflexivity.
Qed.

(** X15. POST /predict answers with status 200 or 500 and no other: a number
    of days below 1 or above 30 is answered with 500, the 400 raised for it
    being caught by the handler's own last clause, and the model is not run;
    a commodity with no rows is answered with 500, not 404, since the model
    has already turned its ValueError into an Exception; and a forecast the
    model returns is passed on with 200. *)
Theorem predict_endpoint_answers_200_or_500 :
  forall (Date Price Forecast : Type)
         (fit_forecast : string -> list (PriceRow Date Price) -> Z -> Outcome Forecast)
         (http_exception_str : Z -> string -> string)
         (df : list (PriceRow Date Price)) (commodity : string) (days : Z),
    let response := api_predict_prices fit_forecast http_exception_str df commodity days in
    (status_of response = 200 \/ status_of response = 500)
    /\ (days < 1 \/ 30 < days ->
        response = HttpError 500 ("Prediction error: "
                                    ++ http_exception_str 400 "Days must be between 1 and 30"))
    /\ (1 <= days <= 30 -> of_commodity df commodity = [] ->
        response = HttpError 500
                     ("Prediction error: Error in price prediction: No data found for commodity: "
                        ++ commodity))
    /\ (forall predictions,
           1 <= days <= 30 -> of_commodity df commodity <> [] ->
           fit_forecast commodity (of_commodity df commodity) days = Returned predictions ->
           response = Http200 {| body_success := true; body_message := None;
                                 body_data := predictions |}).
Proof.
  intros Date Price Forecast fit_forecast http_exception_str df commodity days response.
  subst response; unfold api_predict_prices.
  destruct ((days <? 1) || (30 <? days)) eqn:Hrange.
  - cbn -[String.append].
    apply orb_true_iff in Hrange.
    repeat split; auto; intros; destruct Hrange as [Hl | Hl];
      first [apply Z.ltb_lt in Hl; lia | reflexivity].
  - apply orb_false_iff in Hrange as [Hlow Hhigh].
    apply Z.ltb_ge in Hlow; apply Z.ltb_ge in Hhigh.
    unfold predict_prices.
    destruct (of_commodity df commodity) as [|row rows] eqn:Hrows; cbn -[String.append].
    + repeat split; auto; intros; first [lia | congruence | reflexivity].
    + destruct (fit_forecast commodity (row :: rows) days) as [predictions|cause];
        cbn -[String.append];
        repeat split; auto; intros; first [lia | congruence].
Qed.

(** The last rows of a table are a tail of it. *)
Lemma tail_is_suffix :
  forall (Date Price : Type) (n : Z) (rows : list (PriceRow Date Price)),
    exists older, rows = (older ++ tail n rows)%list.
Proof.
  intros Date Price n rows; unfold tail.
  destruct (n =? 0).
  - exists rows; rewrite app_nil_r; reflexivity.
  - destruct (0 <? n).
    + exists (firstn (List.length rows - Z.to_nat n) rows); symmetry; apply firstn_skipn.
    + exists (firstn (Z.to_nat (- n)) rows); symmetry; apply firstn_skipn.
Qed.

Lemma tail_length :
  forall (Date Price : Type) (n : Z) (rows : list (PriceRow Date Price)),
    0 <= n -> List.length (tail n rows) = Nat.min (Z.to_nat n) (List.length rows).
Proof.
  intros Date Price n rows Hn; unfold tail.
  destruct (Z.eqb_spec n 0) as [-> | Hnz]; [reflexivity|].
  destruct (Z.ltb_spec 0 n); [|lia].
  rewrite length_skipn; lia.
Qed.

(** X16. [get_historical_data] returns the commodity asked for and, for a
    non-negative number of days, the dates and prices of the last [days] rows
    of that commodity, in table order: as many records as [days] or as the
    commodity has rows, whichever is less, all of them rows of that commodity
    and a final segment of them.  A commodity with no rows gives an empty
    list, not an error. *)
Theorem historical_data_is_latest_rows :
  forall (Date Price : Type) (df : list (PriceRow Date Price)) (commodity : string)
         (days : Z),
    let records := snd (get_historical_data df commodity days) in
    let of_it := map (fun row => (row_date row, row_price row)) (of_commodity df commodity) in
    fst (get_historical_data df commodity days) = commodity
    /\ (exists older, of_it = (older ++ records)%list)
    /\ (0 <= days -> List.length records = Nat.min (Z.to_nat days) (List.length of_it))
    /\ (forall row, In row (of_commodity df commodity) ->
                    In row df /\ row_commodity row = commodity)
    /\ (of_commodity df commodity = [] -> records = []).
Proof.
  intros Date Price df commodity days records of_it; subst records of_it.
  unfold get_historical_data; cbn [fst snd].
  split; [reflexivity|]. split; [|split; [|split]].
  - destruct (tail_is_suffix Date Price days (of_commodity df commodity)) as [older Holder].
    exists (map (fun row => (row_date row, row_price row)) older).
    rewrite <- map_app, <- Holder; reflexivity.
  - intros Hdays. rewrite !length_map. apply tail_length; exact Hdays.
  - intros row Hin. unfold of_commodity in Hin.
    apply filter_In in Hin as [Hdf Heq].
    split; [exact Hdf | apply String.eqb_eq; exact Heq].
  - intros ->. unfold tail.
    destruct (days =? 0); [reflexivity|].
    destruct (0 <? days); rewrite skipn_nil; reflexivity.
Qed.

(** ** More runs against the reference environment *)

Section MoreScenarios.
#[local] Existing Instance fake_lib.
#[local] Existing Instance fake_node.
#[local] Existing Instance utc_clock.
#[local] Existing Instance utc_parser.

(** Signing contract 1 on a ledger that mines: the receipt comes back and the
    call reports it. *)
Lemma sign_receipt_witness :
  result (sign_contract keyed_service 1 "0xDEF" (fresh_ledger true)) =
  Returned {| sr_success := true;
              sr_transaction_hash := "0xhash-of-signed:0xSIGNER:0:signAsBuyer(1)";
              sr_block_number := 1;
              sr_gas_used := 21000 |}.
Proof.
  refine (sign_contract_reports_receipt keyed_service 1 "0xDEF" (fresh_ledger true)
            "hash-of-signed:0xSIGNER:0:signAsBuyer(1)"
            {| blockNumber := 1; gasUsed := 21000; logs := [] |} _).
  vm_compute; auto 10.
Defined.

(** An environment with an address and no key: the read is refused without a
    word to the node, which is offline here and is not even probed. *)
Lemma silent_environment_witness :
  get_contract_details (init keyless_environ) 1 offline_ledger =
  (Raised (Exception not_configured), offline_ledger, []).
Proof.
  apply (proj1 (proj2 (proj2
           (unconfigured_environment_is_silent keyless_environ offline_ledger
              (or_intror (or_introl eq_refl)))))).
Defined.

(** The stored contract reads back with its own data, waiting for the buyer. *)
Lemma view_witness :
  match result (get_contract_details keyed_service 1 stocked_ledger) with
  | Returned view =>
      v_contract_id view = 1
      /\ v_commodity view = "Soybean"
      /\ v_farmer_signed view = true
      /\ v_status view =
         _get_contract_status (v_farmer_signed view) (v_buyer_signed view) (v_settled view)
  | Raised _ => False
  end.
Proof.
  destruct (result (get_contract_details keyed_service 1 stocked_ledger))
    as [view|e] eqn:Hresult.
  - destruct (view_mirrors_tuple keyed_service 1 stocked_ledger bulk_contract view)
      as [Hid [_ [_ [Hcommodity [_ [Hfarmer [_ [_ [Hstatus _]]]]]]]]].
    + vm_compute; auto 10.
    + exact Hresult.
    + repeat split; assumption.
  - vm_compute in Hresult; discriminate Hresult.
Defined.

(** Contract 2 is stored, but its delivery date is in the year 10000. *)
Lemma unreadable_contract_witness :
  result (get_contract_details keyed_service 2 archive_ledger) =
  Raised (Exception "Error fetching contract details: year 10000 is out of range").
Proof.
  apply (unconvertible_date_fails_read keyed_service 2 archive_ledger far_future_contract
           (mkExn "ValueError" "year 10000 is out of range")).
  - vm_compute; auto 10.
  - left; vm_compute; reflexivity.
Defined.

(** The 30th of February is no date: status 500, ledger untouched. *)
Lemma unparsable_date_witness :
  api_create_contract keyed_service
    {| rq_commodity := "Soybean"; rq_quantity := 100; rq_price_per_unit := 5000;
       rq_delivery_date := "2025-02-30"; rq_farmer_address := "0xABC" |}
    (fresh_ledger true)
  = (Returned (HttpError 500 "time data 2025-02-30 does not match format %Y-%m-%d"),
     fresh_ledger true, []).
Proof.
  apply (unparsable_date_never_reaches_ledger keyed_service _ (fresh_ledger true)
           (mkExn "ValueError" "time data 2025-02-30 does not match format %Y-%m-%d")).
  vm_compute; reflexivity.
Defined.

(** The end-to-end creation through the endpoint: status 200, id 1. *)
Lemma endpoint_witness :
  exists response,
    result (api_create_contract keyed_service soybean_request creating_ledger)
    = Returned response
    /\ status_of response = 200.
Proof.
  destruct (contract_endpoints_answer_200_or_500 keyed_service soybean_request
              {| rq_contract_id := 1; rq_buyer_address := "0xDEF" |} 1 1748736000
              creating_ledger) as [Hcreate _].
  - vm_compute; reflexivity.
  - rewrite Hcreate. eexists; split; [reflexivity|]. vm_compute; reflexivity.
Defined.


(** The request's date 2025-06-01 reaches the ledger as 1748736000. *)
Lemma parsed_date_witness :
  exists delivery_timestamp,
    strptime_timestamp "2025-06-01" = Returned delivery_timestamp
    /\ createContract "Soybean" 100 5000 1748736000
       = createContract "Soybean" 100 5000 delivery_timestamp.
Proof.
  apply (api_create_builds_parsed_date keyed_service soybean_request creating_ledger
           (createContract "Soybean" 100 5000 1748736000)
           {| p_from := "0xSIGNER"; p_nonce := 0; p_gas := 500000; p_gasPrice := 30 |}
           (Returned {| tx_from := "0xSIGNER"; tx_to := "0xC0FFEE"; tx_nonce := 0;
                        tx_gas := 500000; tx_gasPrice := 30; tx_value := 0;
                        tx_chainId := 80001;
                        tx_data := createContract "Soybean" 100 5000 1748736000 |})).
  vm_compute; auto 10.
Defined.
End MoreScenarios.
